(** * Tile-address resolution of the multi-source downloader

    A shallow embedding of the resolvers of [link_generator.py] and of the
    stand-alone FROM_GLC scripts [2015/Download_FROM_GLC_2015.py] and
    [2017/Download_FROM_GLC_2017.py], followed by the properties of the
    specification that concern them.

    Conventions of the embedding:
    - a Python [int] is a [Z];
    - a coordinate (a Python [float], or an [int] where the caller passes
      one) is a [Q]: the arithmetic of the resolvers ([//], [+], [*],
      comparisons, [int()]) is read exactly on rationals;
    - a [str] is a [string] of ASCII characters;
    - a generator is the list of the values it yields, in order; where the
      body can raise, the list comes with the exception that ended it;
    - [print] appends to a log that is returned next to the links. *)

From Stdlib Require Import ZArith QArith Qround List String Ascii Bool Lia.
From Stdlib Require Import DecimalString ListSet Lqa.
Import ListNotations.

Local Open Scope Z_scope.

(** ** Python primitives used by the resolvers *)

Module Py.

(** [a < b] on numbers, as a boolean. *)
Definition Qlt_bool (a b : Q) : bool := negb (Qle_bool b a).

(** [max(a, b)]: the first argument unless the second is strictly larger. *)
Definition max (a b : Q) : Q := if Qlt_bool a b then b else a.

(** [min(a, b)]: the first argument unless the second is strictly smaller. *)
Definition min (a b : Q) : Q := if Qlt_bool b a then b else a.

(** [value // d] on numbers: the floor of the quotient. *)
Definition floordiv (value : Q) (d : Z) : Q :=
  inject_Z (Qfloor (value / inject_Z d)).

(** [int(x)] on a number: truncation toward zero. *)
Definition int (x : Q) : Z := Z.quot (Qnum x) (Z.pos (Qden x)).

(** [len(range(start, stop, step))] for [step <> 0]. *)
Definition range_len (start stop step : Z) : nat :=
  if 0 <? step then
    if start <? stop then Z.to_nat ((stop - start - 1) / step + 1) else 0%nat
  else
    if stop <? start then Z.to_nat ((start - stop - 1) / (- step) + 1) else 0%nat.

(** [range(start, stop, step)] as the list of its items. *)
Definition range (start stop step : Z) : list Z :=
  map (fun i => start + Z.of_nat i * step) (seq 0 (range_len start stop step)).

(** [str(n)] for an [int]. *)
Definition str (n : Z) : string := NilZero.string_of_int (Z.to_int n).

(** [f"{s:0>w}"]: pad on the left with ['0'] up to width [w]. *)
Definition zfill_left (w : nat) (s : string) : string :=
  String.concat EmptyString (repeat "0"%string (w - String.length s)) ++ s.

(** Exceptions the resolvers can meet. *)
Inductive exn : Type := ValueError | IndexError.

(** A computation that returns or raises. *)
Inductive result (A : Type) : Type :=
| Ok (a : A)
| Raise (e : exn).
Arguments Ok {A} a.
Arguments Raise {A} e.

Definition bind {A B} (c : result A) (k : A -> result B) : result B :=
  match c with
  | Ok a => k a
  | Raise e => Raise e
  end.

Notation "x <- c ;; k" := (bind c (fun x => k))
  (at level 61, c at next level, right associativity).

(** *** Strings *)

(** [s.split(sep)] for a one-character separator: never empty, one more
    field than there are separators. *)
Fixpoint split (sep : ascii) (s : string) : list string :=
  match s with
  | EmptyString => [EmptyString]
  | String c rest =>
      if Ascii.eqb c sep then EmptyString :: split sep rest
      else match split sep rest with
           | [] => [String c EmptyString]
           | f :: fs => String c f :: fs
           end
  end.

(** [l[-n:]]: the last [n] items, or all of [l] when it is shorter. *)
Definition last_items {A} (n : nat) (l : list A) : list A :=
  skipn (List.length l - n) l.

(** [l[n:]]: what is left after the first [n] items. *)
Definition items_from {A} (n : nat) (l : list A) : list A := skipn n l.

(** [s.endswith(suffix)]. *)
Definition endswith (s suffix : string) : bool :=
  (String.length suffix <=? String.length s)%nat &&
  String.eqb
    (substring (String.length s - String.length suffix) (String.length suffix) s)
    suffix.

(** White space in the sense of [str.isspace], ASCII part. *)
Definition isspace (c : ascii) : bool :=
  let n := nat_of_ascii c in
  ((9 <=? n) && (n <=? 13) || (28 <=? n) && (n <=? 32))%nat.

Fixpoint lstrip (s : string) : string :=
  match s with
  | String c rest => if isspace c then lstrip rest else s
  | EmptyString => EmptyString
  end.

Fixpoint rev_string (s acc : string) : string :=
  match s with
  | EmptyString => acc
  | String c rest => rev_string rest (String c acc)
  end.

(** [s.strip()]. *)
Definition strip (s : string) : string :=
  rev_string (lstrip (rev_string (lstrip s) EmptyString)) EmptyString.

Definition digit_of (c : ascii) : option Z :=
  let n := nat_of_ascii c in
  if ((48 <=? n) && (n <=? 57))%nat then Some (Z.of_nat n - 48) else None.

(** The value of a run of decimal digits, [None] on any other character. *)
Fixpoint digits_value (acc : Z) (s : string) : option Z :=
  match s with
  | EmptyString => Some acc
  | String c rest =>
      match digit_of c with
      | Some d => digits_value (10 * acc + d) rest
      | None => None
      end
  end.

Definition unsigned_of_str (s : string) : result Z :=
  match s with
  | EmptyString => Raise ValueError
  | _ => match digits_value 0 s with
         | Some n => Ok n
         | None => Raise ValueError
         end
  end.

(** [int(s)] for a [str] without digit-group underscores: surrounding
    white space, one optional sign, then at least one decimal digit;
    anything else is a [ValueError]. *)
Definition int_of_str (s : string) : result Z :=
  match strip s with
  | String "-" rest => n <- unsigned_of_str rest ;; Ok (- n)
  | String "+" rest => unsigned_of_str rest
  | t => unsigned_of_str t
  end.

(** [s.lower()] on ASCII letters. *)
Definition lower_char (c : ascii) : ascii :=
  let n := nat_of_ascii c in
  if ((65 <=? n) && (n <=? 90))%nat then ascii_of_nat (n + 32) else c.

Fixpoint lower (s : string) : string :=
  match s with
  | EmptyString => EmptyString
  | String c rest => String (lower_char c) (lower rest)
  end.

(** [s.startswith(p)]. *)
Definition startswith (s p : string) : bool := String.prefix p s.

(** [s[n:]]. *)
Fixpoint str_from (n : nat) (s : string) : string :=
  match n, s with
  | O, _ => s
  | S n', String _ rest => str_from n' rest
  | S _, EmptyString => EmptyString
  end.

(** [s[:n]]. *)
Fixpoint str_upto (n : nat) (s : string) : string :=
  match n, s with
  | S n', String c rest => String c (str_upto n' rest)
  | _, _ => EmptyString
  end.

End Py.

Notation "x <- c ;; k" := (Py.bind c (fun x => k))
  (at level 61, c at next level, right associativity).


(** ** link_generator.py *)

Module LinkGenerator.

(** [adjust_to_nearest_10(value, is_min=True)], module level
    (GLC_FCS30D_UNOFFICIAL). *)
Definition adjust_to_nearest_10 (value : Q) (is_min : bool) : Q :=
  if is_min then
    Py.max (inject_Z (-180)) (Py.floordiv value 10 * inject_Z 10)
  else
    Py.min (inject_Z 180) (Py.floordiv (value + inject_Z 9) 10 * inject_Z 10).

(** [_get_left_decval(val)] (GSW). *)
Definition _get_left_decval (val : Q) : Z :=
  let val := Py.int val in
  if val mod 10 =? 0 then val
  else if 0 <? val then Z.abs val / 10 * 10
  else - (1 + Z.abs val / 10) * 10.

(** One end of a GLC_FCS30D longitude band:
    [f"{'E' if x >= 0 else 'W'}{abs(x)}"]. *)
Definition band_end (x : Z) : string :=
  ((if (0 <=? x)%Z then "E" else "W") ++ Py.str (Z.abs x))%string.

(** The body of the loop of [get_links_glc_fcs30d_unofficial]: the link
    of the 10-degree cell that starts at [lon]. *)
Definition glc_fcs30d_cell_link (lon : Z) : string :=
  let '(left_left_top, right_left_top) :=
    if Z.abs lon <? Z.abs (lon + 5) then (lon, lon + 5) else (lon + 5, lon) in
  ("https://zenodo.org/records/8239305/files/GLC_FCS30D_19852022maps_"
     ++ band_end left_left_top ++ "-" ++ band_end right_left_top
     ++ ".zip?download=1")%string.

(** [get_links_glc_fcs30d_unofficial(min_lat, max_lat, min_lon, max_lon)]. *)
Definition get_links_glc_fcs30d_unofficial
    (min_lat max_lat min_lon max_lon : Q) : list string :=
  let lon_min := adjust_to_nearest_10 min_lon true in
  let lon_max := adjust_to_nearest_10 max_lon false in
  map glc_fcs30d_cell_link (Py.range (Py.int lon_min) (Py.int lon_max + 1) 10).

(** *** GFC_FCS30D *)

(** An entry of [predefined_bboxes]. *)
Record region : Type := Region
  { r_min_lat : Q; r_max_lat : Q; r_min_lon : Q; r_max_lon : Q }.

(** A rectangle built by [box(minx, miny, maxx, maxy)]. *)
Record rect : Type := Rect { minx : Q; miny : Q; maxx : Q; maxy : Q }.

(** Modelled from the spec: shapely's [box] and [intersects] are imported,
    not part of the repository. Section 4.1 gives the meaning: the standard
    intersection of rectangles, touching boundaries counting as a match. *)
Definition box (minx miny maxx maxy : Q) : rect := Rect minx miny maxx maxy.

Definition intersects (a b : rect) : bool :=
  Qle_bool (minx a) (maxx b) && Qle_bool (minx b) (maxx a) &&
  Qle_bool (miny a) (maxy b) && Qle_bool (miny b) (maxy a).

(** What the resolvers print. *)
Inductive message : Type :=
| Info_no_intersection (map_year : Z)
    (* "Info: Your AOI does not intersect with the predefined region ..." *)
| Info_not_available (map_year : Z)
    (* "Info: GFC_FCS30D data is not available for the map year ..." *)
| Adjusted_boundary (lon_min lat_min lon_max lat_max : Q)
    (* "Adjusted boundary for ...: [(lon_min, lat_min) - (lon_max, lat_max)]" *)
| No_data_for_tile (name : string).
    (* "No FROM_GLC 2015 data for tile: ..." *)

Definition gfc_fcs30d_link (map_year : Z) : string :=
  ("https://zenodo.org/records/10068479/files/GWL_FCS30_"
     ++ Py.str map_year ++ ".zip?download=1")%string.

(** [key in d] and [d[key]] for a dict written as its items. *)
Fixpoint dict_get {V} (d : list (Z * V)) (key : Z) : option V :=
  match d with
  | [] => None
  | (k, v) :: rest => if key =? k then Some v else dict_get rest key
  end.

Section GFC_FCS30D.

(** The two tables are local constants of the function; the body is
    written over them. *)
Variable predefined_bboxes : list (Z * region).
Variable global_coverage_years : list Z.

Definition get_links_gfc_fcs30d_over
    (year : Z) (min_lat max_lat min_lon max_lon : Q)
    : list string * list message :=
  let map_year := if year =? 2024 then 2022 else year in
  let user_aoi := box min_lon min_lat max_lon max_lat in
  if existsb (Z.eqb map_year) global_coverage_years then
    ([gfc_fcs30d_link map_year], [])
  else
    match dict_get predefined_bboxes map_year with
    | Some r =>
        let data_bbox :=
          box (r_min_lon r) (r_min_lat r) (r_max_lon r) (r_max_lat r) in
        if intersects user_aoi data_bbox then
          ([gfc_fcs30d_link map_year], [])
        else ([], [Info_no_intersection map_year])
    | None => ([], [Info_not_available map_year])
    end.

End GFC_FCS30D.

Definition africa_historical : region := Region (35 # 10) (163 # 10) 27 (433 # 10).
Definition africa_static : region := Region (- 1 # 10) (181 # 10) (99 # 10) (433 # 10).

Definition predefined_bboxes : list (Z * region) :=
  [ (2000, africa_historical); (2005, africa_historical);
    (2010, africa_historical); (2015, africa_historical);
    (2019, africa_static); (2022, africa_historical) ].

Definition global_coverage_years : list Z :=
  [2000; 2005; 2010; 2015; 2019; 2020; 2022].

(** [get_links_gfc_fcs30d(year, min_lat, max_lat, min_lon, max_lon)]. *)
Definition get_links_gfc_fcs30d :=
  get_links_gfc_fcs30d_over predefined_bboxes global_coverage_years.

(** *** Catalog snapshots *)

(** An element of a metadata file: [ele['id']] as it is printed into a
    link, and [ele['name']]. *)
Record entry : Type := Entry { id : string; name : string }.

(** *** FROM_GLC 2015 and GFC_TreeCover2000 *)

(** [f"{abs(lat):0>2}{'N' if lat >= 0 else 'S'}"]. *)
Definition lat_label (lat : Z) : string :=
  (Py.zfill_left 2 (Py.str (Z.abs lat)) ++ (if (0 <=? lat)%Z then "N" else "S"))%string.

(** [f"{abs(lon):0>3}{'E' if lon >= 0 else 'W'}"]. *)
Definition lon_label (lon : Z) : string :=
  (Py.zfill_left 3 (Py.str (Z.abs lon)) ++ (if (0 <=? lon)%Z then "E" else "W"))%string.

(** [f"{lon_label}{lat_label}.tif"]. *)
Definition tile_name (lat lon : Z) : string :=
  (lon_label lon ++ lat_label lat ++ ".tif")%string.

(** The corners the two nested loops visit, in order:
    [for lat in range(int(lat_max), int(lat_min), -10)] and inside it
    [for lon in range(int(lon_min), int(lon_max), 10)]. *)
Definition grid_corners (lat_min lat_max lon_min lon_max : Q) : list (Z * Z) :=
  flat_map
    (fun lat =>
       map (fun lon => (lat, lon)) (Py.range (Py.int lon_min) (Py.int lon_max) 10))
    (Py.range (Py.int lat_max) (Py.int lat_min) (-10)).

Module FromGlc2015.

(** The [adjust_to_nearest_10] local to [get_links_from_glc_2015]. *)
Definition adjust_to_nearest_10 (value : Q) (is_latitude is_min : bool) : Q :=
  if is_latitude then
    if is_min then Py.max (inject_Z (-60)) (Py.floordiv value 10 * inject_Z 10)
    else Py.min (inject_Z 80) (Py.floordiv (value + inject_Z 9) 10 * inject_Z 10)
  else
    if is_min then Py.max (inject_Z (-180)) (Py.floordiv value 10 * inject_Z 10)
    else Py.min (inject_Z 180) (Py.floordiv (value + inject_Z 9) 10 * inject_Z 10).

Definition link (e : entry) : string :=
  ("https://data-starcloud.pcl.ac.cn/api/en/resourceFile/download/3/" ++ id e)%string.

(** The inner [for ele in meta_data: ... break / else: print(...)]. *)
Definition lookup_tile (meta_data : list entry) (corner : Z * Z)
    : list string * list message :=
  let name_ := tile_name (fst corner) (snd corner) in
  match find (fun ele => String.eqb (name ele) name_) meta_data with
  | Some ele => ([link ele], [])
  | None => ([], [No_data_for_tile name_])
  end.

(** The corners visited for a bounding box. *)
Definition corners (min_lat max_lat min_lon max_lon : Q) : list (Z * Z) :=
  grid_corners (adjust_to_nearest_10 min_lat true true)
               (adjust_to_nearest_10 max_lat true false)
               (adjust_to_nearest_10 min_lon false true)
               (adjust_to_nearest_10 max_lon false false).

(** [get_links_from_glc_2015(meta_file, min_lat, max_lat, min_lon, max_lon)],
    on the content of the metadata file. *)
Definition get_links_from_glc_2015
    (meta_data : list entry) (min_lat max_lat min_lon max_lon : Q)
    : list string * list message :=
  let lat_min := adjust_to_nearest_10 min_lat true true in
  let lat_max := adjust_to_nearest_10 max_lat true false in
  let lon_min := adjust_to_nearest_10 min_lon false true in
  let lon_max := adjust_to_nearest_10 max_lon false false in
  let visited := map (lookup_tile meta_data)
                     (grid_corners lat_min lat_max lon_min lon_max) in
  (flat_map fst visited,
   Adjusted_boundary lon_min lat_min lon_max lat_max :: flat_map snd visited).

End FromGlc2015.

Module TreeCover2000.

(** The [adjust_to_nearest_10] local to [get_links_gfc_treecover2000]. *)
Definition adjust_to_nearest_10 (value : Q) (is_latitude is_min : bool) : Q :=
  if is_latitude then
    if is_min then Py.max (inject_Z (-50)) (Py.floordiv value 10 * inject_Z 10)
    else Py.min (inject_Z 80) (Py.floordiv (value + inject_Z 9) 10 * inject_Z 10)
  else
    if is_min then Py.max (inject_Z (-180)) (Py.floordiv value 10 * inject_Z 10)
    else Py.min (inject_Z 180) (Py.floordiv (value + inject_Z 9) 10 * inject_Z 10).

Definition link (corner : Z * Z) : string :=
  ("https://storage.googleapis.com/earthenginepartners-hansen/GFC-2023-v1.11/Hansen_GFC-2023-v1.11_treecover2000_"
     ++ lat_label (fst corner) ++ "_" ++ lon_label (snd corner) ++ ".tif")%string.

(** [get_links_gfc_treecover2000(min_lat, max_lat, min_lon, max_lon)]. *)
Definition get_links_gfc_treecover2000 (min_lat max_lat min_lon max_lon : Q)
    : list string * list message :=
  let lat_min := adjust_to_nearest_10 min_lat true true in
  let lat_max := adjust_to_nearest_10 max_lat true false in
  let lon_min := adjust_to_nearest_10 min_lon false true in
  let lon_max := adjust_to_nearest_10 max_lon false false in
  (map link (grid_corners lat_min lat_max lon_min lon_max),
   [Adjusted_boundary lon_min lat_min lon_max lat_max]).

End TreeCover2000.

(** *** FROM_GLC 2017 *)

Module FromGlc2017.

Definition link (e : entry) : string :=
  ("https://data-starcloud.pcl.ac.cn/api/en/resourceFile/download/1/" ++ id e)%string.

(** The first two statements of the [try] block:
    [lat_str, lon_str = ele['name'].split('.')[0].split('_')[-2:]] and
    [lat, lon = int(lat_str), int(lon_str)]. Unpacking anything but two
    fields is a [ValueError]. *)
Definition parse_lat_lon (name_ : string) : Py.result (Z * Z) :=
  match Py.last_items 2 (Py.split "_" (hd EmptyString (Py.split "." name_))) with
  | [lat_str; lon_str] =>
      lat <- Py.int_of_str lat_str ;;
      lon <- Py.int_of_str lon_str ;;
      Py.Ok (lat, lon)
  | _ => Py.Raise Py.ValueError
  end.

(** [min_lon <= lon <= max_lon and min_lat <= lat <= max_lat]. *)
Definition inside (min_lat max_lat min_lon max_lon : Q) (lat lon : Z) : bool :=
  Qle_bool min_lon (inject_Z lon) && Qle_bool (inject_Z lon) max_lon &&
  Qle_bool min_lat (inject_Z lat) && Qle_bool (inject_Z lat) max_lat.

(** The [try] block for one element: what it yields, or what it raises. *)
Definition try_block (min_lat max_lat min_lon max_lon : Q) (ele : entry)
    : Py.result (list string) :=
  ll <- parse_lat_lon (name ele) ;;
  let '(lat, lon) := ll in
  if inside min_lat max_lat min_lon max_lon lat lon
  then Py.Ok [link ele] else Py.Ok [].

(** One turn of the loop, with its [except (ValueError, IndexError)]. *)
Definition visit (min_lat max_lat min_lon max_lon : Q) (ele : entry)
    : list string :=
  if negb (Py.endswith (name ele) ".tif") then []
  else match try_block min_lat max_lat min_lon max_lon ele with
       | Py.Ok yielded => yielded
       | Py.Raise Py.ValueError => []
       | Py.Raise Py.IndexError => []
       end.

(** [get_links_from_glc_2017(meta_file, min_lat, max_lat, min_lon, max_lon)],
    on the content of the metadata file. *)
Fixpoint get_links_from_glc_2017
    (meta_data : list entry) (min_lat max_lat min_lon max_lon : Q)
    : list string :=
  match meta_data with
  | [] => []
  | ele :: rest =>
      visit min_lat max_lat min_lon max_lon ele
        ++ get_links_from_glc_2017 rest min_lat max_lat min_lon max_lon
  end.

End FromGlc2017.

(** *** Year availability *)

(** The key of [find_closest_year]: [(abs(y - target_year), -y)]. *)
Definition year_key (target_year y : Z) : Z * Z := (Z.abs (y - target_year), - y).

(** [a < b] on pairs of integers, as Python compares tuples. *)
Definition key_lt (a b : Z * Z) : bool :=
  (fst a <? fst b) || ((fst a =? fst b) && (snd a <? snd b)).

(** [min(l, key=...)] on a non-empty iterable, [best] being the smallest
    seen so far: a later item replaces it only when strictly smaller. *)
Fixpoint min_by_key (key : Z -> Z * Z) (best : Z) (l : list Z) : Z :=
  match l with
  | [] => best
  | y :: rest => min_by_key key (if key_lt (key y) (key best) then y else best) rest
  end.

(** [find_closest_year(target_year, available_years)]; [None] is Python's. *)
Definition find_closest_year (target_year : Z) (available_years : list Z)
    : option Z :=
  match available_years with
  | [] => None
  | y :: rest => Some (min_by_key (year_key target_year) y rest)
  end.

(** The year snapping of the main block, for one source and one requested
    year: [available_years] is [SOURCE_YEAR_AVAILABILITY.get(source)], so
    [None] when the source is not in the table. The result is the value of
    [year] after the [if]. *)
Definition resolve_year (year : Z) (available_years : option (list Z))
    : option Z :=
  let truthy := match available_years with
                | Some (_ :: _) => true
                | _ => false
                end in
  let years := match available_years with Some l => l | None => [] end in
  if truthy && negb (existsb (Z.eqb year) years)
  then find_closest_year year years
  else Some year.

(** [SOURCE_YEAR_AVAILABILITY] of the main block. *)
Definition SOURCE_YEAR_AVAILABILITY : list (string * list Z) :=
  [ ("GFC_FCS30D"%string, [2000; 2005; 2010; 2015; 2019; 2020; 2024]);
    ("GHS_BU_R2023A"%string, [2018]);
    ("FROM_GLC_2010"%string, [2010]);
    ("FROM_GLC_2015"%string, [2015]);
    ("FROM_GLC_2017"%string, [2017]);
    ("GISD30"%string, Py.range 1985 2021 1);
    ("WSF"%string, [2015; 2019]);
    ("GFC_TreeCover2000"%string, [2000]);
    ("GLC_FCS30D_UNOFFICIAL"%string, Py.range 1985 2023 1) ].

(** [SOURCE_YEAR_AVAILABILITY.get(source)]. *)
Fixpoint source_years (table : list (string * list Z)) (source : string)
    : option (list Z) :=
  match table with
  | [] => None
  | (s, years) :: rest =>
      if String.eqb source s then Some years else source_years rest source
  end.

(** The year the main block goes on with for [source] and a requested
    [year]. *)
Definition resolved_year (source : string) (year : Z) : option Z :=
  resolve_year year (source_years SOURCE_YEAR_AVAILABILITY source).

(** *** GSW *)

(** The packed row and column of the tile whose corner is [(lat, lon)]:
    [left = 4 * (70 - lat) // 10] and [right = 4 * (lon + 180) // 10]. *)
Definition gsw_indices (lat lon : Z) : Z * Z :=
  (4 * (70 - lat) / 10, 4 * (lon + 180) / 10).

(** [link_tmp.format(year=year, left=left, right=right)], with the
    separator after the year that the template of that year has. *)
Definition gsw_link (year left_ right_ : Z) : string :=
  ("https://jeodpp.jrc.ec.europa.eu/ftp/jrc-opendata/GSWE/YearlyClassification/LATEST/tiles/yearlyClassification"
     ++ Py.str year ++ "/yearlyClassification" ++ Py.str year
     ++ (if (year =? 2021)%Z then "_" else "-")
     ++ Py.zfill_left 6 (Py.str left_) ++ "0000-"
     ++ Py.zfill_left 6 (Py.str right_) ++ "0000.tif")%string.

(** The corners of the two loops of [get_links_gsw], longitude outside. *)
Definition gsw_corners (min_lat max_lat min_lon max_lon : Q) : list (Z * Z) :=
  let start_lon := _get_left_decval min_lon in
  let end_lon := _get_left_decval max_lon in
  let start_lat := _get_left_decval min_lat in
  let end_lat := _get_left_decval max_lat in
  flat_map
    (fun lon => map (fun lat => (lat, lon)) (Py.range start_lat (end_lat + 10) 10))
    (Py.range start_lon (end_lon + 10) 10).

(** [get_links_gsw(year, min_lat, max_lat, min_lon, max_lon)]. *)
Definition get_links_gsw (year : Z) (min_lat max_lat min_lon max_lon : Q)
    : list string :=
  map (fun corner =>
         let '(left_, right_) := gsw_indices (fst corner) (snd corner) in
         gsw_link year left_ right_)
      (gsw_corners min_lat max_lat min_lon max_lon).

(** *** GFC *)

(** [get_links_gfc(year)]. *)
Definition get_links_gfc (year : Z) : list string :=
  [("https://zenodo.org/records/10068479/files/GWL_FCS30_"
      ++ Py.str year ++ ".zip?download=1")%string].

(** *** GISD30 *)

(** [map_link_ranges], in the order it is written. *)
Definition map_link_ranges : list ((Z * Z) * string) :=
  [ ((-180, -150), "W155_W180"%string); ((-150, -120), "W125_W150"%string);
    ((-120, -90), "W95_W120"%string); ((-90, -60), "W65_W90"%string);
    ((-60, -30), "W35_W60"%string); ((-30, 0), "W5_W30"%string);
    ((0, 35), "E0_E30"%string); ((35, 65), "E35_E60"%string);
    ((65, 95), "E65_E90"%string); ((95, 125), "E95_E120"%string);
    ((125, 155), "E125_E150"%string); ((155, 180), "E155_E175"%string) ].

Definition gisd30_link (val : string) : string :=
  ("https://zenodo.org/records/5220816/files/GISD30_1985-2020_" ++ val
     ++ ".rar?download=1")%string.

(** [rg[0] <= max_lon and rg[1] >= min_lon]. *)
Definition band_matches (min_lon max_lon : Q) (rg : Z * Z) : bool :=
  Qle_bool (inject_Z (fst rg)) max_lon && Qle_bool min_lon (inject_Z (snd rg)).

(** [get_links_gisd30(min_lat, max_lat, min_lon, max_lon)]: the content of
    [unique_links] after the first loop. The second loop yields its
    elements in the order of a Python set, which is not fixed: only
    membership and size of the list below are meaningful. *)
Definition get_links_gisd30 (min_lat max_lat min_lon max_lon : Q) : list string :=
  fold_left
    (fun unique_links item =>
       if band_matches min_lon max_lon (fst item)
       then set_add string_dec (gisd30_link (snd item)) unique_links
       else unique_links)
    map_link_ranges [].

(** *** The entries of the main block *)

(** What the main block appends to [info_list[source]] for one requested
    year: [None] when the pair is skipped, else [year] and [map_year]. *)
Definition main_entry (source : string) (requested : Z) : option (Z * Z) :=
  match resolved_year source requested with
  | None => None
  | Some year =>
      if String.eqb source "GSW" && negb ((1984 <=? year) && (year <=? 2023))
      then None
      else
        let map_year :=
          if String.eqb source "GFC_FCS30D" && (year =? 2024) then 2022
          else if String.eqb source "GHS_BU_R2023A" then 2018
          else year in
        Some (year, map_year)
  end.

(** *** FROM_GLC 2010 *)

(** [get_path_rows_from_name(name)]. *)
Definition get_path_rows_from_name (name_ : string) : Py.result (Z * Z) :=
  let parts := Py.str_from 2 (hd EmptyString (Py.split "_" name_)) in
  path <- Py.int_of_str (Py.str_upto 3 parts) ;;
  row <- Py.int_of_str (Py.str_from 3 parts) ;;
  Py.Ok (path, row).

(** The key [f"{path}_{row}"] of [metas]. *)
Definition path_row_key (path row : Z) : string :=
  (Py.str path ++ "_" ++ Py.str row)%string.

(** [metas[key].append(ele)] on a [defaultdict(list)] written as its items. *)
Fixpoint metas_append (metas : list (string * list entry)) (key : string)
    (ele : entry) : list (string * list entry) :=
  match metas with
  | [] => [(key, [ele])]
  | (k, eles) :: rest =>
      if String.eqb key k then (k, eles ++ [ele]) :: rest
      else (k, eles) :: metas_append rest key ele
  end.

(** [key in metas] and [metas[key]]. *)
Fixpoint metas_get (metas : list (string * list entry)) (key : string)
    : option (list entry) :=
  match metas with
  | [] => None
  | (k, eles) :: rest => if String.eqb key k then Some eles else metas_get rest key
  end.

(** The first loop of [get_links_from_glc_2010]: the index of the entries
    whose name starts with [l5] in any case. Nothing catches the
    [ValueError] of a name that does not hold a path and a row. *)
Fixpoint index_metas (meta_data : list entry) (metas : list (string * list entry))
    : Py.result (list (string * list entry)) :=
  match meta_data with
  | [] => Py.Ok metas
  | ele :: rest =>
      if negb (Py.startswith (Py.lower (name ele)) "l5") then index_metas rest metas
      else
        pr <- get_path_rows_from_name (name ele) ;;
        index_metas rest (metas_append metas (path_row_key (fst pr) (snd pr)) ele)
  end.

(** What [get_links_from_glc_2010] prints. *)
Inductive message_2010 : Type :=
| Missing_metadata (key : string).
    (* "Missing metadata for path/row: ..." *)

Definition link_2010 (e : entry) : string :=
  ("https://data-starcloud.pcl.ac.cn/api/en/resourceFile/download/4/" ++ id e)%string.

(** One turn of the loop over the rows of the path/row frame. *)
Definition visit_path_row (metas : list (string * list entry)) (path_row : Z * Z)
    : list string * list message_2010 :=
  let key := path_row_key (fst path_row) (snd path_row) in
  match metas_get metas key with
  | None => ([], [Missing_metadata key])
  | Some eles =>
      (map link_2010 (filter (fun ele => Py.endswith (name ele) ".tif.tar.gz") eles),
       [])
  end.

(** [get_links_from_glc_2010], on the content of the metadata file and on
    the frame that [find_paths_rows_of_Landsat_by_range] returns (its
    [PATH] and [ROW] columns, row by row): geopandas is not part of the
    repository. *)
Definition get_links_from_glc_2010
    (meta_data : list entry) (paths_rows : list (Z * Z))
    : Py.result (list string * list message_2010) :=
  metas <- index_metas meta_data [] ;;
  let visited := map (visit_path_row metas) paths_rows in
  Py.Ok (flat_map fst visited, flat_map snd visited).

(** *** Fetching a catalog *)

(** What [_fetch_pcl_metadata] reads in the answer to one request:
    [resp_data.get('success')], [resp_data.get('data', {}).get('total', 0)]
    and [resp_data.get('data', {}).get('list', [])]. *)
Record response : Type := Response
  { success : bool; total : Z; page_list : list entry }.

Section Fetch.

(** The answer to the request for page [pageNum], [None] when the request
    raises a [RequestException]. The n-th request of a run always asks for
    page n. *)
Variable server : Z -> option response.

(** The loop of [_fetch_pcl_metadata], [fuel] bounding the number of
    requests: [None] when the bound is reached, [Some None] for Python's
    [None], [Some (Some res)] for the list returned. *)
Fixpoint fetch_pages (fuel : nat) (pageNum : Z) (res : list entry)
    : option (option (list entry)) :=
  match fuel with
  | O => None
  | S fuel' =>
      match server pageNum with
      | None => Some None
      | Some resp_data =>
          if negb (success resp_data) then Some (Some res)
          else
            match page_list resp_data with
            | [] => Some (Some res)
            | _ :: _ =>
                let res := res ++ page_list resp_data in
                if total resp_data <=? pageNum * 100 then Some (Some res)
                else fetch_pages fuel' (pageNum + 1) res
            end
      end
  end.

(** [_fetch_pcl_metadata(save_to, url, referer, dataset_name)], as far as
    its result goes. *)
Definition _fetch_pcl_metadata (fuel : nat) : option (option (list entry)) :=
  fetch_pages fuel 1 [].

End Fetch.

End LinkGenerator.

(** ** 2015/Download_FROM_GLC_2015.py *)

Module Download_FROM_GLC_2015.

Import LinkGenerator.

(** [adjust_to_nearest_10(value, is_latitude=True, is_min=True)]. *)
Definition adjust_to_nearest_10 (value : Q) (is_latitude is_min : bool) : Q :=
  if is_latitude then
    if is_min then Py.max (inject_Z (-60)) (Py.floordiv value 10 * inject_Z 10)
    else Py.min (inject_Z 80) (Py.floordiv (value + inject_Z 9) 10 * inject_Z 10)
  else
    if is_min then Py.max (inject_Z (-180)) (Py.floordiv value 10 * inject_Z 10)
    else Py.min (inject_Z 180) (Py.floordiv (value + inject_Z 9) 10 * inject_Z 10).

(** The name built in the body of the loops of [get_links_for_region]. *)
Definition name_of_corner (lat lon : Z) : string :=
  let lat_label :=
    (Py.zfill_left 2 (Py.str (Z.abs lat)) ++ (if (0 <=? lat)%Z then "N" else "S"))%string in
  let lon_label :=
    (Py.zfill_left 3 (Py.str (Z.abs lon)) ++ (if (0 <=? lon)%Z then "E" else "W"))%string in
  (lon_label ++ lat_label ++ ".tif")%string.

(** The corners the loops of [get_links_for_region] visit. *)
Definition corners (min_lat max_lat min_lon max_lon : Q) : list (Z * Z) :=
  let lat_min := adjust_to_nearest_10 min_lat true true in
  let lat_max := adjust_to_nearest_10 max_lat true false in
  let lon_min := adjust_to_nearest_10 min_lon false true in
  let lon_max := adjust_to_nearest_10 max_lon false false in
  flat_map
    (fun lat =>
       map (fun lon => (lat, lon)) (Py.range (Py.int lon_min) (Py.int lon_max) 10))
    (Py.range (Py.int lat_max) (Py.int lat_min) (-10)).

(** [get_links_for_region(meta_file, min_lat, max_lat, min_lon, max_lon)]:
    the links it yields (its prints are left out). *)
Definition get_links_for_region
    (meta_data : list entry) (min_lat max_lat min_lon max_lon : Q) : list string :=
  flat_map
    (fun corner =>
       match find (fun ele => String.eqb (name ele)
                                 (name_of_corner (fst corner) (snd corner)))
                  meta_data with
       | Some ele =>
           [("https://data-starcloud.pcl.ac.cn/api/en/resourceFile/download/3/"
               ++ id ele)%string]
       | None => []
       end)
    (corners min_lat max_lat min_lon max_lon).

End Download_FROM_GLC_2015.

(** ** 2017/Download_FROM_GLC_2017.py *)

Module Download_FROM_GLC_2017.

Import LinkGenerator.

Definition link (e : entry) : string :=
  ("https://data-starcloud.pcl.ac.cn/api/en/resourceFile/download/1/" ++ id e)%string.

(** [lat, lon = ele['name'].split('.')[0].split('_')[1:]] and
    [lat, lon = int(lat), int(lon)]. *)
Definition parse_lat_lon (name_ : string) : Py.result (Z * Z) :=
  match Py.items_from 1 (Py.split "_" (hd EmptyString (Py.split "." name_))) with
  | [lat_str; lon_str] =>
      lat <- Py.int_of_str lat_str ;;
      lon <- Py.int_of_str lon_str ;;
      Py.Ok (lat, lon)
  | _ => Py.Raise Py.ValueError
  end.

(** [min_lon <= lon <= max_lon and min_lat <= lat <= max_lat]. *)
Definition inside (min_lat max_lat min_lon max_lon : Q) (lat lon : Z) : bool :=
  Qle_bool min_lon (inject_Z lon) && Qle_bool (inject_Z lon) max_lon &&
  Qle_bool min_lat (inject_Z lat) && Qle_bool (inject_Z lat) max_lat.

(** The condition of the [if]: the corner or one of its shifted variants. *)
Definition matches (min_lat max_lat min_lon max_lon : Q) (lat lon : Z) : bool :=
  inside min_lat max_lat min_lon max_lon lat lon
  || inside min_lat max_lat min_lon max_lon lat (lon + 2)
  || inside min_lat max_lat min_lon max_lon (lat + 2) lon
  || inside min_lat max_lat min_lon max_lon (lat + 2) (lon + 2).

(** [get_links_for_region(meta_file, min_lat, max_lat, min_lon, max_lon)],
    on the content of the metadata file: the links yielded, and the
    exception that ended the generator, if one did. *)
Fixpoint get_links_for_region
    (meta_data : list entry) (min_lat max_lat min_lon max_lon : Q)
    : list string * option Py.exn :=
  match meta_data with
  | [] => ([], None)
  | ele :: rest =>
      if negb (Py.endswith (name ele) ".tif") then
        get_links_for_region rest min_lat max_lat min_lon max_lon
      else
        match parse_lat_lon (name ele) with
        | Py.Raise e => ([], Some e)
        | Py.Ok (lat, lon) =>
            let '(yielded, raised) :=
              get_links_for_region rest min_lat max_lat min_lon max_lon in
            if matches min_lat max_lat min_lon max_lon lat lon
            then (link ele :: yielded, raised)
            else (yielded, raised)
        end
  end.

(** What [get_info] reads in an answer: [resp_data['success']],
    [resp_data['data']['total']] and [resp_data['data']['list']]. *)
Record response : Type := Response
  { success : bool; total : Z; page_list : list entry }.

Section GetInfo.

(** The answer to the request for page [pageNum], [None] when
    [raise_for_status] raises. *)
Variable server : Z -> option response.

(** How a run of [get_info] ends within a bound on the number of
    requests. *)
Inductive run : Type :=
| Still_requesting (pageNum : Z)
| Returned (res : list entry)
| Raised.

(** The loop of [get_info]. *)
Fixpoint get_info_pages (fuel : nat) (pageNum : Z) (res : list entry) : run :=
  match fuel with
  | O => Still_requesting pageNum
  | S fuel' =>
      match server pageNum with
      | None => Raised
      | Some resp_data =>
          if negb (success resp_data) then Returned res
          else if total resp_data <=? 0 then Returned res
          else get_info_pages fuel' (pageNum + 1) (res ++ page_list resp_data)
      end
  end.

(** [get_info(save_to)]. *)
Definition get_info (fuel : nat) : run := get_info_pages fuel 1 [].

End GetInfo.

End Download_FROM_GLC_2017.

(** ** Vocabulary of the specification *)

Module Spec.

(** What a quantizer pair does on a grid-aligned value [v], for an axis
    clamped to [[lo, hi]]: inside the clamp both directions return [v];
    below [lo] rounding down returns [lo], above [hi] rounding up
    returns [hi]. *)
Definition fixes_aligned (down up : Q -> Q) (lo hi : Z) (v : Q) : Prop :=
  ((inject_Z lo <= v)%Q -> (down v == v)%Q) /\
  ((v <= inject_Z hi)%Q -> (up v == v)%Q) /\
  ((v <= inject_Z lo)%Q -> (down v == inject_Z lo)%Q) /\
  ((inject_Z hi <= v)%Q -> (up v == inject_Z hi)%Q).

(** [a <= b] on pairs of integers, in the lexicographic order Python
    gives to tuples. *)
Definition key_le (a b : Z * Z) : Prop :=
  fst a < fst b \/ (fst a = fst b /\ snd a <= snd b).

(** [y] minimizes the key [(|year - requested|, -year)] over [l]. *)
Definition minimizes_key (requested : Z) (l : list Z) (y : Z) : Prop :=
  In y l /\
  forall z, In z l ->
    key_le (LinkGenerator.year_key requested y) (LinkGenerator.year_key requested z).

(** The AOI rectangle and the region rectangle share a point: their
    closed intervals meet on both axes, a common edge or corner included. *)
Definition meets_region (min_lat max_lat min_lon max_lon : Q)
    (r : LinkGenerator.region) : Prop :=
  (min_lon <= LinkGenerator.r_max_lon r)%Q /\
  (LinkGenerator.r_min_lon r <= max_lon)%Q /\
  (min_lat <= LinkGenerator.r_max_lat r)%Q /\
  (LinkGenerator.r_min_lat r <= max_lat)%Q.

(** A bounding box lies inside the declared coverage of
    GFC_TreeCover2000. *)
Definition inside_treecover_coverage (min_lat max_lat min_lon max_lon : Q) : Prop :=
  (inject_Z (-50) <= min_lat)%Q /\ (min_lat <= max_lat)%Q /\
  (max_lat <= inject_Z 80)%Q /\
  (inject_Z (-180) <= min_lon)%Q /\ (min_lon <= max_lon)%Q /\
  (max_lon <= inject_Z 180)%Q.

(** [v] lies strictly between a multiple of 10 and the next whole degree:
    its floor is a multiple of 10 and it is not a whole number. *)
Definition just_above_grid_line (v : Q) : bool :=
  (Qfloor v mod 10 =? 0) && negb (Qeq_bool v (inject_Z (Qfloor v))).

(** An axis of the box is reduced to one point that is on a grid line. *)
Definition on_grid_line (lo hi : Q) : Prop :=
  (lo == hi)%Q /\ exists k : Z, (hi == inject_Z (10 * k))%Q.

(** The corners visited, on the integer bounds of the two loops. *)
Definition corners_between (lat_min lat_max lon_min lon_max : Z) : list (Z * Z) :=
  flat_map (fun lat => map (fun lon => (lat, lon)) (Py.range lon_min lon_max 10))
           (Py.range lat_max lat_min (-10)).

(** The character of a decimal digit. *)
Definition digit (d : Z) : ascii := ascii_of_nat (48 + Z.to_nat d).

(** A number below 1000 on three digits, zero-padded. *)
Definition three_digits (n : Z) : string :=
  String (digit (n / 100))
    (String (digit (n / 10 mod 10)) (String (digit (n mod 10)) EmptyString)).

(** A number below 100 on two digits, zero-padded. *)
Definition two_digits (n : Z) : string :=
  String (digit (n / 10)) (String (digit (n mod 10)) EmptyString).

(** The tile label of a grid corner: three digits of longitude and the
    hemisphere letter after them, two digits of latitude and the hemisphere
    letter after them, then [.tif]. *)
Definition tile_label (lat lon : Z) : string :=
  (three_digits (Z.abs lon) ++ (if (0 <=? lon)%Z then "E" else "W")
     ++ two_digits (Z.abs lat) ++ (if (0 <=? lat)%Z then "N" else "S")
     ++ ".tif")%string.

(** The latitudes and longitudes of the corners of the 10-degree grid of
    FROM_GLC 2015: 80 down to -50, and -180 up to 170. *)
Definition grid_latitudes : list Z := Py.range 80 (-60) (-10).
Definition grid_longitudes : list Z := Py.range (-180) 180 10.

(** The point [(lat, lon)] lies inside the query bounding box. *)
Definition inside_box (min_lat max_lat min_lon max_lon : Q) (lat lon : Z) : Prop :=
  (min_lat <= inject_Z lat)%Q /\ (inject_Z lat <= max_lat)%Q /\
  (min_lon <= inject_Z lon)%Q /\ (inject_Z lon <= max_lon)%Q.

(** At least one of [(lat, lon)], [(lat, lon + 2)], [(lat + 2, lon)] and
    [(lat + 2, lon + 2)] lies inside the query bounding box. *)
Definition some_variant_inside
    (min_lat max_lat min_lon max_lon : Q) (lat lon : Z) : Prop :=
  inside_box min_lat max_lat min_lon max_lon lat lon
  \/ inside_box min_lat max_lat min_lon max_lon lat (lon + 2)
  \/ inside_box min_lat max_lat min_lon max_lon (lat + 2) lon
  \/ inside_box min_lat max_lat min_lon max_lon (lat + 2) (lon + 2).

(** The part of a file name before its first dot, cut at the underscores. *)
Definition name_fields (name_ : string) : list string :=
  Py.split "_" (hd EmptyString (Py.split "." name_)).

(** The last two underscore-delimited fields of the name are the integers
    [lat] and [lon]. *)
Definition trailing_lat_lon (name_ : string) (lat lon : Z) : Prop :=
  exists fields lat_str lon_str,
    name_fields name_ = fields ++ [lat_str; lon_str]
    /\ Py.int_of_str lat_str = Py.Ok lat
    /\ Py.int_of_str lon_str = Py.Ok lon.

(** [f] returns its own results unchanged. *)
Definition idempotent (f : Q -> Q) : Prop := forall v, f (f v) = f v.

(** [down] sends every value that is not below [lo] to the multiple of 10
    at or just under it. *)
Definition floors_to_grid (down : Q -> Q) (lo : Z) : Prop :=
  forall v, (inject_Z lo <= v)%Q ->
    exists k : Z, down v = inject_Z (10 * k)
                  /\ (inject_Z (10 * k) <= v)%Q /\ (v < inject_Z (10 * k + 10))%Q.

(** [up] sends every value that is not above [hi] to a multiple of 10 that
    is less than ten degrees above the value and less than one degree
    below it; the multiple is at or above the value exactly when the value
    is not just above a grid line. *)
Definition ceils_to_grid_but_for_gap (up : Q -> Q) (hi : Z) : Prop :=
  forall v, (v <= inject_Z hi)%Q ->
    exists k : Z, up v = inject_Z (10 * k)
                  /\ (inject_Z (10 * k - 10) < v)%Q /\ (v < inject_Z (10 * k + 1))%Q
                  /\ ((v <= inject_Z (10 * k))%Q <-> just_above_grid_line v = false).

(** The cell of the 10-degree grid whose upper-left corner is [corner]
    (latitude first) holds the point [(p_lat, p_lon)], edges included. The
    loops of FROM_GLC 2015 and GFC_TreeCover2000 name a cell by that corner:
    latitudes run down from the upper bound, which is visited, to the lower
    bound, which is not; longitudes run up from the lower bound, which is
    visited, to the upper bound, which is not. *)
Definition cell_holds (corner : Z * Z) (p_lat p_lon : Q) : Prop :=
  (inject_Z (fst corner - 10) <= p_lat)%Q /\ (p_lat <= inject_Z (fst corner))%Q /\
  (inject_Z (snd corner) <= p_lon)%Q /\ (p_lon <= inject_Z (snd corner + 10))%Q.

(** A bounding box lies inside the range FROM_GLC 2015 clamps to. *)
Definition inside_from_glc_2015_range (min_lat max_lat min_lon max_lon : Q) : Prop :=
  (inject_Z (-60) <= min_lat)%Q /\ (min_lat <= max_lat)%Q /\
  (max_lat <= inject_Z 80)%Q /\
  (inject_Z (-180) <= min_lon)%Q /\ (min_lon <= max_lon)%Q /\
  (max_lon <= inject_Z 180)%Q.

(** The catalog entry is a Landsat 5 scene of the path/row that [key]
    stands for: its name starts with [l5] in any case and holds a path and
    a row whose key is [key]. *)
Definition carries_key (key : string) (ele : LinkGenerator.entry) : bool :=
  Py.startswith (Py.lower (LinkGenerator.name ele)) "l5"
  && match LinkGenerator.get_path_rows_from_name (LinkGenerator.name ele) with
     | Py.Ok pr =>
         String.eqb key (LinkGenerator.path_row_key (fst pr) (snd pr))
     | Py.Raise _ => false
     end.

(** The scenes of a path/row, in the order of the catalog. *)
Definition scenes_of (meta_data : list LinkGenerator.entry) (path_row : Z * Z)
    : list LinkGenerator.entry :=
  filter (carries_key (LinkGenerator.path_row_key (fst path_row) (snd path_row)))
         meta_data.

(** Every entry whose name starts with [l5] holds a path and a row. *)
Definition scenes_well_named (meta_data : list LinkGenerator.entry) : Prop :=
  forall ele, In ele meta_data ->
    Py.startswith (Py.lower (LinkGenerator.name ele)) "l5" = true ->
    exists pr, LinkGenerator.get_path_rows_from_name (LinkGenerator.name ele) = Py.Ok pr.

(** [metas[key]] of a [defaultdict(list)], read without creating the key. *)
Definition scenes_at (metas : list (string * list LinkGenerator.entry))
    (key : string) : list LinkGenerator.entry :=
  match LinkGenerator.metas_get metas key with
  | Some eles => eles
  | None => []
  end.

(** No key of the index has an empty list. *)
Definition no_empty_key (metas : list (string * list LinkGenerator.entry)) : Prop :=
  forall key, LinkGenerator.metas_get metas key <> Some [].

(** A catalog server that answers as [_fetch_pcl_metadata] expects: every
    answer succeeds, carries the size of the catalog as [total], and page
    [pageNum] holds the items [100 * (pageNum - 1)] to [100 * pageNum - 1]
    of the catalog. *)
Definition paged_server (items : list LinkGenerator.entry)
    : Z -> option LinkGenerator.response :=
  fun pageNum =>
    Some (LinkGenerator.Response true (Z.of_nat (List.length items))
            (firstn 100 (skipn (100 * (Z.to_nat pageNum - 1)) items))).

(** The request for page [p] is answered, with success, a non-empty page
    and a total that page [p] does not reach yet. *)
Definition page_goes_on (server : Z -> option LinkGenerator.response) (p : Z) : Prop :=
  exists r, server p = Some r
            /\ LinkGenerator.success r = true
            /\ LinkGenerator.page_list r <> []
            /\ p * 100 < LinkGenerator.total r.

(** The request for page [p] of the 2017 script is answered with success
    and a positive total. *)
Definition page_positive (server : Z -> option Download_FROM_GLC_2017.response)
    (p : Z) : Prop :=
  exists r, server p = Some r
            /\ Download_FROM_GLC_2017.success r = true
            /\ 0 < Download_FROM_GLC_2017.total r.

(** The lists of the pages [1] to [k - 1], one after the other. *)
Definition pages_before (server : Z -> option Download_FROM_GLC_2017.response)
    (k : Z) : list LinkGenerator.entry :=
  flat_map (fun p => match server p with
                     | Some r => Download_FROM_GLC_2017.page_list r
                     | None => []
                     end)
           (Py.range 1 k 1).

End Spec.

(** * Properties *)

(** ** Arithmetic of the Python primitives *)

(** Goals on quotients and remainders by 10: name them and leave the rest
    to linear arithmetic. *)
Ltac grid_arith := Z.div_mod_to_equations; lia.

Section Numbers.

Lemma Qfloor_div_pos (q : Q) (d : positive) :
  Qfloor (q / inject_Z (Z.pos d)) = Qfloor q / Z.pos d.
Proof.
  destruct q as [n p]. unfold Qdiv, Qinv, Qmult, Qfloor; simpl.
  rewrite Z.mul_1_r, Pos2Z.inj_mul, Z.div_div by lia. reflexivity.
Qed.

Lemma Qfloor_add_Z (q : Q) (z : Z) :
  Qfloor (q + inject_Z z) = Qfloor q + z.
Proof.
  destruct q as [n p]. unfold Qplus, Qfloor; simpl.
  rewrite Pos.mul_1_r, Z.mul_1_r, Z.div_add by lia. reflexivity.
Qed.

Lemma Qfloor_aligned (v : Q) (n : Z) : v == inject_Z n -> Qfloor v = n.
Proof. intros ->. apply Qfloor_Z. Qed.

Lemma floordiv_times_10 (v : Q) :
  (Py.floordiv v 10 * inject_Z 10)%Q = inject_Z (Qfloor v / 10 * 10).
Proof. unfold Py.floordiv. rewrite (Qfloor_div_pos v 10). reflexivity. Qed.

Lemma max_inject_Z (a b : Z) :
  Py.max (inject_Z a) (inject_Z b) = inject_Z (Z.max a b).
Proof.
  unfold Py.max, Py.Qlt_bool, Qle_bool; simpl. rewrite !Z.mul_1_r.
  destruct (Z.leb_spec b a); simpl; f_equal; lia.
Qed.

Lemma min_inject_Z (a b : Z) :
  Py.min (inject_Z a) (inject_Z b) = inject_Z (Z.min a b).
Proof.
  unfold Py.min, Py.Qlt_bool, Qle_bool; simpl. rewrite !Z.mul_1_r.
  destruct (Z.leb_spec a b); simpl; f_equal; lia.
Qed.

Lemma int_inject_Z (z : Z) : Py.int (inject_Z z) = z.
Proof. unfold Py.int; simpl. apply Z.quot_1_r. Qed.

(** Rounding down to the grid, then clamping from below. *)
Lemma round_down_clamped (lo : Z) (v : Q) :
  Py.max (inject_Z lo) (Py.floordiv v 10 * inject_Z 10)
  = inject_Z (Z.max lo (Qfloor v / 10 * 10)).
Proof. rewrite floordiv_times_10. apply max_inject_Z. Qed.

(** Adding nine and rounding down, then clamping from above. *)
Lemma round_up_clamped (hi : Z) (v : Q) :
  Py.min (inject_Z hi) (Py.floordiv (v + inject_Z 9) 10 * inject_Z 10)
  = inject_Z (Z.min hi ((Qfloor v + 9) / 10 * 10)).
Proof. rewrite floordiv_times_10, Qfloor_add_Z. apply min_inject_Z. Qed.

Lemma Qfloor_lower (lo : Z) (v : Q) : (inject_Z lo <= v)%Q -> lo <= Qfloor v.
Proof. intros H. rewrite <- (Qfloor_Z lo). now apply Qfloor_resp_le. Qed.

Lemma Qfloor_upper (hi : Z) (v : Q) : (v <= inject_Z hi)%Q -> Qfloor v <= hi.
Proof. intros H. rewrite <- (Qfloor_Z hi). now apply Qfloor_resp_le. Qed.

End Numbers.

(** ** Membership in a range *)

Section Ranges.

Lemma range_up_In (a b s x : Z) :
  0 < s ->
  In x (Py.range a b s) <-> a <= x < b /\ (x - a) mod s = 0.
Proof.
  intros Hs. unfold Py.range, Py.range_len.
  replace (0 <? s) with true by (symmetry; now apply Z.ltb_lt).
  rewrite in_map_iff. split.
  - intros (i & <- & Hi). apply in_seq in Hi.
    destruct (Z.ltb_spec a b); [|simpl in Hi; lia].
    assert (Z.of_nat i <= (b - a - 1) / s) as Hle.
    { assert (0 <= (b - a - 1) / s) by (apply Z.div_pos; lia). lia. }
    assert (s * Z.of_nat i <= b - a - 1) as Hm.
    { etransitivity; [apply Z.mul_le_mono_nonneg_l; [lia | exact Hle]|].
      apply Z.mul_div_le; lia. }
    split; [nia|].
    replace (a + Z.of_nat i * s - a) with (Z.of_nat i * s) by lia.
    apply Z.mod_mul; lia.
  - intros ([Hax Hxb] & Hmod).
    apply Z.div_exact in Hmod; [|lia].
    assert (0 <= (x - a) / s) by (apply Z.div_pos; lia).
    exists (Z.to_nat ((x - a) / s)). split; [rewrite Z2Nat.id; lia|].
    apply in_seq. destruct (Z.ltb_spec a b); [|lia].
    assert ((x - a) / s <= (b - a - 1) / s) by (apply Z.div_le_mono; lia).
    lia.
Qed.

Lemma range_down_In (a b s x : Z) :
  s < 0 ->
  In x (Py.range a b s) <-> b < x <= a /\ (a - x) mod (- s) = 0.
Proof.
  intros Hs. unfold Py.range, Py.range_len.
  replace (0 <? s) with false by (symmetry; apply Z.ltb_ge; lia).
  rewrite in_map_iff. split.
  - intros (i & <- & Hi). apply in_seq in Hi.
    destruct (Z.ltb_spec b a); [|simpl in Hi; lia].
    assert (Z.of_nat i <= (a - b - 1) / (- s)) as Hle.
    { assert (0 <= (a - b - 1) / (- s)) by (apply Z.div_pos; lia). lia. }
    assert ((- s) * Z.of_nat i <= a - b - 1) as Hm.
    { etransitivity; [apply Z.mul_le_mono_nonneg_l; [lia | exact Hle]|].
      apply Z.mul_div_le; lia. }
    split; [nia|].
    replace (a - (a + Z.of_nat i * s)) with (Z.of_nat i * (- s)) by lia.
    apply Z.mod_mul; lia.
  - intros ([Hbx Hxa] & Hmod).
    apply Z.div_exact in Hmod; [|lia].
    assert (0 <= (a - x) / (- s)) by (apply Z.div_pos; lia).
    exists (Z.to_nat ((a - x) / (- s))). split; [rewrite Z2Nat.id; nia|].
    apply in_seq. destruct (Z.ltb_spec b a); [|lia].
    assert ((a - x) / (- s) <= (a - b - 1) / (- s)) by (apply Z.div_le_mono; lia).
    lia.
Qed.

End Ranges.

(** ** GSW: [_get_left_decval] *)

Section LeftDecval.

Import LinkGenerator.

(** The three branches together floor the truncated value to the grid. *)
Lemma get_left_decval_floors_truncation (v : Q) :
  _get_left_decval v = 10 * (Py.int v / 10).
Proof.
  unfold _get_left_decval. generalize (Py.int v) as z. intros z.
  destruct (Z.eqb_spec (z mod 10) 0) as [E | E].
  - apply Z.div_exact in E; lia.
  - destruct (Z.ltb_spec 0 z).
    + rewrite Z.abs_eq by lia. lia.
    + rewrite Z.abs_neq by lia.
      revert E. grid_arith.
Qed.

(** On whole degrees truncation changes nothing, and the result is the
    floor on the 10-degree grid. *)
Lemma get_left_decval_whole_degrees (z : Z) :
  _get_left_decval (inject_Z z) = 10 * Qfloor (inject_Z z / inject_Z 10).
Proof.
  rewrite get_left_decval_floors_truncation, int_inject_Z.
  rewrite (Qfloor_div_pos (inject_Z z) 10), Qfloor_Z. reflexivity.
Qed.

(** So it is on every value that is not negative. *)
Lemma get_left_decval_nonnegative (v : Q) :
  (0 <= v)%Q -> _get_left_decval v = 10 * Qfloor (v / inject_Z 10).
Proof.
  intros Hv. rewrite get_left_decval_floors_truncation, (Qfloor_div_pos v 10).
  destruct v as [n p]. unfold Py.int, Qfloor; simpl.
  rewrite Z.quot_div_nonneg; [reflexivity | | lia].
  unfold Qle in Hv; simpl in Hv. lia.
Qed.

(** C5. [_get_left_decval] is claimed to be [10 * floor(v / 10)] for every
    value, negative and fractional ones included. At [v = -0.5] the code
    truncates to [0] first and returns [0], where the floor on the grid is
    [-10]; likewise at [v = -10.5] it returns [-10], not [-20]. *)
Theorem get_left_decval_negative_fraction :
  _get_left_decval (- 1 # 2) = 0
  /\ 10 * Qfloor ((- 1 # 2) / inject_Z 10) = -10
  /\ _get_left_decval (- 21 # 2) = -10
  /\ 10 * Qfloor ((- 21 # 2) / inject_Z 10) = -20.
Proof. repeat split; reflexivity. Qed.

End LeftDecval.

(** ** Grid quantization on aligned values *)

Section Aligned.

Lemma clamped_rounding_fixes_aligned (lo hi : Z) (v : Q) (k : Z) :
  (v == inject_Z (10 * k))%Q ->
  Spec.fixes_aligned
    (fun v => Py.max (inject_Z lo) (Py.floordiv v 10 * inject_Z 10))
    (fun v => Py.min (inject_Z hi) (Py.floordiv (v + inject_Z 9) 10 * inject_Z 10))
    lo hi v.
Proof.
  intros Hv. unfold Spec.fixes_aligned.
  rewrite round_down_clamped, round_up_clamped, (Qfloor_aligned v _ Hv).
  replace (10 * k / 10 * 10) with (10 * k)
    by (rewrite Z.mul_comm, Z.div_mul; lia).
  replace ((10 * k + 9) / 10 * 10) with (10 * k)
    by grid_arith.
  rewrite Hv, <- !Zle_Qle.
  repeat split; intros H; apply inject_Z_injective; lia.
Qed.

End Aligned.

Section AlignedVariants.

Import LinkGenerator.

(** C6, as amended. On a value [v] that is an exact multiple of 10, every
    variant of [adjust_to_nearest_10] returns [v] itself in the round-down
    direction when [v] is not below the lower clamp of its axis, and in the
    round-up direction when [v] is not above the upper clamp; past the
    clamp it returns the clamp bound. The variants are the module-level one
    (longitude, [-180, 180]), the one local to FROM_GLC 2015 and the one of
    the 2015 script (latitude [-60, 80], longitude [-180, 180]), and the
    one local to GFC_TreeCover2000 (latitude [-50, 80], longitude
    [-180, 180]). *)
Theorem adjust_to_nearest_10_aligned (v : Q) (k : Z) :
  (v == inject_Z (10 * k))%Q ->
  Spec.fixes_aligned (fun v => adjust_to_nearest_10 v true)
                      (fun v => adjust_to_nearest_10 v false) (-180) 180 v
  /\ Spec.fixes_aligned (fun v => FromGlc2015.adjust_to_nearest_10 v true true)
                         (fun v => FromGlc2015.adjust_to_nearest_10 v true false)
                         (-60) 80 v
  /\ Spec.fixes_aligned (fun v => FromGlc2015.adjust_to_nearest_10 v false true)
                         (fun v => FromGlc2015.adjust_to_nearest_10 v false false)
                         (-180) 180 v
  /\ Spec.fixes_aligned (fun v => Download_FROM_GLC_2015.adjust_to_nearest_10 v true true)
                         (fun v => Download_FROM_GLC_2015.adjust_to_nearest_10 v true false)
                         (-60) 80 v
  /\ Spec.fixes_aligned (fun v => Download_FROM_GLC_2015.adjust_to_nearest_10 v false true)
                         (fun v => Download_FROM_GLC_2015.adjust_to_nearest_10 v false false)
                         (-180) 180 v
  /\ Spec.fixes_aligned (fun v => TreeCover2000.adjust_to_nearest_10 v true true)
                         (fun v => TreeCover2000.adjust_to_nearest_10 v true false)
                         (-50) 80 v
  /\ Spec.fixes_aligned (fun v => TreeCover2000.adjust_to_nearest_10 v false true)
                         (fun v => TreeCover2000.adjust_to_nearest_10 v false false)
                         (-180) 180 v.
Proof.
  intros Hv.
  pose proof (fun lo hi => clamped_rounding_fixes_aligned lo hi v k Hv) as H.
  repeat (split; [exact (H _ _)|]). exact (H _ _).
Qed.

(** The aligned value 30 lies inside every clamp, so all variants return it
    in both directions. *)
Lemma adjust_to_nearest_10_aligned_witness :
  (30 == inject_Z (10 * 3))%Q
  /\ (adjust_to_nearest_10 30 true == 30)%Q
  /\ (TreeCover2000.adjust_to_nearest_10 30 true false == 30)%Q.
Proof.
  split; [reflexivity|].
  pose proof (adjust_to_nearest_10_aligned 30 3 ltac:(reflexivity)) as H.
  destruct H as (Hm & _ & _ & _ & _ & Ht & _).
  split.
  - apply Hm. unfold Qle; simpl; lia.
  - apply Ht. unfold Qle; simpl; lia.
Defined.

(** C6, as stated, fails where the clamp cuts: the latitude [-60] is a
    multiple of 10, yet the GFC_TreeCover2000 variant rounds it down to
    its lower clamp [-50]; the latitude [90] is rounded up to [80] by the
    latitude variants, and the aligned value [-190] is rounded down to
    [-180] by the module-level one. *)
Lemma adjust_to_nearest_10_clamp_moves_aligned :
  ~ (TreeCover2000.adjust_to_nearest_10 (-60) true true == -60)%Q
  /\ (TreeCover2000.adjust_to_nearest_10 (-60) true true == -50)%Q
  /\ ~ (FromGlc2015.adjust_to_nearest_10 90 true false == 90)%Q
  /\ (FromGlc2015.adjust_to_nearest_10 90 true false == 80)%Q
  /\ ~ (adjust_to_nearest_10 (-190) true == -190)%Q.
Proof. repeat split; try discriminate; reflexivity. Qed.

End AlignedVariants.

(** ** Year availability *)

Section Years.

Import LinkGenerator.

Lemma key_lt_false_le (a b : Z * Z) : key_lt a b = false -> Spec.key_le b a.
Proof.
  unfold key_lt, Spec.key_le. intros H.
  apply orb_false_elim in H as [H1 H2]. apply Z.ltb_ge in H1.
  apply andb_false_elim in H2 as [H2 | H2].
  - apply Z.eqb_neq in H2. lia.
  - apply Z.ltb_ge in H2. lia.
Qed.

Lemma key_lt_true_le (a b : Z * Z) : key_lt a b = true -> Spec.key_le a b.
Proof.
  unfold key_lt, Spec.key_le. intros H.
  apply orb_true_elim in H as [H | H].
  - apply Z.ltb_lt in H. lia.
  - apply andb_true_iff in H as [H1 H2].
    apply Z.eqb_eq in H1. apply Z.ltb_lt in H2. lia.
Qed.

Lemma key_le_refl (a : Z * Z) : Spec.key_le a a.
Proof. unfold Spec.key_le. lia. Qed.

Lemma key_le_trans (a b c : Z * Z) :
  Spec.key_le a b -> Spec.key_le b c -> Spec.key_le a c.
Proof. unfold Spec.key_le. lia. Qed.

(** The running minimum is one of the items seen, and no item seen has a
    smaller key. *)
Lemma min_by_key_least (key : Z -> Z * Z) (l : list Z) :
  forall best,
    let m := min_by_key key best l in
    (m = best \/ In m l)
    /\ Spec.key_le (key m) (key best)
    /\ forall z, In z l -> Spec.key_le (key m) (key z).
Proof.
  induction l as [| y rest IH]; intros best; simpl.
  - split; [now left|]. split; [apply key_le_refl | contradiction].
  - destruct (IH (if key_lt (key y) (key best) then y else best))
      as (Hin & Hbest & Hrest).
    destruct (key_lt (key y) (key best)) eqn:E.
    + apply key_lt_true_le in E.
      split; [destruct Hin as [-> | Hin]; auto|].
      split; [eapply key_le_trans; eauto|].
      intros z [<- | Hz]; auto.
    + apply key_lt_false_le in E.
      split; [destruct Hin as [-> | Hin]; auto|].
      split; [assumption|].
      intros z [<- | Hz]; [eapply key_le_trans; eauto | auto].
Qed.

Lemma find_closest_year_minimizes (t : Z) (l : list Z) :
  l <> [] ->
  exists y, find_closest_year t l = Some y /\ Spec.minimizes_key t l y.
Proof.
  destruct l as [| y0 rest]; [congruence | intros _].
  exists (min_by_key (year_key t) y0 rest). split; [reflexivity|].
  destruct (min_by_key_least (year_key t) rest y0) as (Hin & Hbest & Hrest).
  split.
  - destruct Hin as [-> | Hin]; [now left | now right].
  - intros z [<- | Hz]; auto.
Qed.

(** The key is injective in the year, so a list has one minimizer. *)
Lemma minimizes_key_unique (t : Z) (l : list Z) (y y' : Z) :
  Spec.minimizes_key t l y -> Spec.minimizes_key t l y' -> y = y'.
Proof.
  intros [Hy Hmin] [Hy' Hmin'].
  specialize (Hmin _ Hy'). specialize (Hmin' _ Hy).
  unfold Spec.key_le, year_key in *; simpl in *. lia.
Qed.

(** A requested year that is available is its own minimizer. *)
Lemma minimizes_key_member (t : Z) (l : list Z) (y : Z) :
  In t l -> Spec.minimizes_key t l y -> y = t.
Proof.
  intros Ht [_ Hmin]. specialize (Hmin _ Ht).
  unfold Spec.key_le, year_key in Hmin; simpl in Hmin. lia.
Qed.

(** C2. On a non-empty list [find_closest_year] returns an element that
    minimizes [(|year - requested|, -year)]: the nearest year, the larger
    one on a tie. That element is the only minimizer, whatever the order
    of the list, and it is the requested year when the list has it. For
    [{2000, 2010}], 2005 gives 2010 and 2003 gives 2000. *)
Theorem find_closest_year_nearest_then_recent :
  (forall (requested : Z) (available : list Z),
      available <> [] ->
      exists y,
        find_closest_year requested available = Some y
        /\ Spec.minimizes_key requested available y
        /\ (In requested available -> y = requested)
        /\ (forall y', Spec.minimizes_key requested available y' -> y' = y))
  /\ find_closest_year 2005 [2000; 2010] = Some 2010
  /\ find_closest_year 2005 [2010; 2000] = Some 2010
  /\ find_closest_year 2003 [2000; 2010] = Some 2000.
Proof.
  split; [|repeat split; reflexivity].
  intros t l Hl.
  destruct (find_closest_year_minimizes t l Hl) as (y & Hy & Hmin).
  exists y. split; [assumption|]. split; [assumption|]. split.
  - intros Ht. eapply minimizes_key_member; eauto.
  - intros y' Hy'. eapply minimizes_key_unique; eauto.
Qed.

Lemma find_closest_year_nearest_then_recent_witness :
  [2000; 2010] <> []
  /\ exists y, find_closest_year 2005 [2000; 2010] = Some y
               /\ Spec.minimizes_key 2005 [2000; 2010] y.
Proof.
  split; [discriminate|].
  destruct (proj1 find_closest_year_nearest_then_recent 2005 [2000; 2010])
    as (y & Hy & Hmin & _); [discriminate|].
  exists y. split; assumption.
Defined.

(** On its own the helper has no answer for an empty list. *)
Lemma find_closest_year_empty (requested : Z) :
  find_closest_year requested [] = None.
Proof. reflexivity. Qed.

(** C7. A source without a list of years, or with an empty one, keeps the
    requested year: the main block calls [find_closest_year] only under
    [if available_years and year not in available_years]. GSW, GFC and ESRI
    have no entry in [SOURCE_YEAR_AVAILABILITY] and accept any year. *)
Theorem resolve_year_without_availability (requested : Z) :
  resolve_year requested None = Some requested
  /\ resolve_year requested (Some []) = Some requested
  /\ (forall source,
        source_years SOURCE_YEAR_AVAILABILITY source = None ->
        resolved_year source requested = Some requested)
  /\ resolved_year "GSW" requested = Some requested
  /\ resolved_year "GFC" requested = Some requested
  /\ resolved_year "ESRI" requested = Some requested.
Proof.
  repeat split; try reflexivity.
  intros source Hnone. unfold resolved_year. rewrite Hnone. reflexivity.
Qed.

Lemma resolve_year_without_availability_witness :
  source_years SOURCE_YEAR_AVAILABILITY "GSW" = None
  /\ resolved_year "GSW" 1990 = Some 1990.
Proof.
  split; [reflexivity|].
  apply (proj1 (proj2 (proj2 (resolve_year_without_availability 1990))) "GSW"%string).
  reflexivity.
Defined.

(** With a list of years, the main block returns the requested year when
    it is listed and the closest one otherwise. *)
Lemma resolve_year_with_availability (requested : Z) (available : list Z) :
  available <> [] ->
  exists y, resolve_year requested (Some available) = Some y
            /\ Spec.minimizes_key requested available y.
Proof.
  intros Hl.
  destruct (find_closest_year_minimizes requested available Hl) as (y & Hy & Hmin).
  destruct available as [| y0 rest]; [congruence|].
  unfold resolve_year.
  destruct (existsb (Z.eqb requested) (y0 :: rest)) eqn:E; cbn [negb andb].
  - exists requested. split; [reflexivity|].
    apply existsb_exists in E as (x & Hx & Heq). apply Z.eqb_eq in Heq. subst x.
    assert (y = requested) by (eapply minimizes_key_member; eauto).
    subst y. exact Hmin.
  - exists y. split; assumption.
Qed.

End Years.

(** ** GFC_FCS30D *)

Section GfcFcs30d.

Import LinkGenerator.

Lemma intersects_meets (min_lat max_lat min_lon max_lon : Q) (r : region) :
  intersects (box min_lon min_lat max_lon max_lat)
             (box (r_min_lon r) (r_min_lat r) (r_max_lon r) (r_max_lat r)) = true
  <-> Spec.meets_region min_lat max_lat min_lon max_lon r.
Proof.
  unfold intersects, box, Spec.meets_region; simpl.
  rewrite !andb_true_iff, !Qle_bool_iff. tauto.
Qed.

(** C3. Take a year whose map year (2024 standing for 2022) is not a
    global-coverage year. If the map year has a predefined region, the
    resolver yields exactly one link when the AOI rectangle meets the
    region rectangle, a shared edge or corner being enough, and no link
    (with the no-intersection notice) when it does not. If the map year
    has no predefined region either, it yields no link and prints the
    not-available notice; nothing is raised. The statement is over the
    body of the function, for any content of its two tables. *)
Theorem gfc_fcs30d_regional_or_unknown_year
    (predefined : list (Z * region)) (global : list Z)
    (year : Z) (min_lat max_lat min_lon max_lon : Q) :
  let map_year := if year =? 2024 then 2022 else year in
  let out := get_links_gfc_fcs30d_over predefined global
               year min_lat max_lat min_lon max_lon in
  existsb (Z.eqb map_year) global = false ->
  match dict_get predefined map_year with
  | Some r =>
      (Spec.meets_region min_lat max_lat min_lon max_lon r ->
       out = ([gfc_fcs30d_link map_year], []))
      /\ (~ Spec.meets_region min_lat max_lat min_lon max_lon r ->
          out = ([], [Info_no_intersection map_year]))
  | None => out = ([], [Info_not_available map_year])
  end.
Proof.
  intros map_year out Hglobal. subst out.
  unfold get_links_gfc_fcs30d_over. fold map_year. rewrite Hglobal.
  destruct (dict_get predefined map_year) as [r|]; [|reflexivity].
  pose proof (intersects_meets min_lat max_lat min_lon max_lon r) as Hm.
  destruct (intersects _ _).
  - split; [reflexivity|]. intros Hn. exfalso. apply Hn, Hm. reflexivity.
  - split; [|reflexivity]. intros Hy. apply Hm in Hy. discriminate.
Qed.

(** Two runs: the year 2021 with the tables of the source (neither global
    nor regional), and the year 2019 with 2019 taken out of the global
    years, for an AOI that only touches the corner (18.1 N, 43.3 E) of the
    2019 region. *)
Lemma gfc_fcs30d_regional_or_unknown_year_witness :
  get_links_gfc_fcs30d 2021 0 1 0 1 = ([], [Info_not_available 2021])
  /\ get_links_gfc_fcs30d_over predefined_bboxes [2020]
       2019 (181 # 10) 20 (433 # 10) 50
     = ([gfc_fcs30d_link 2019], []).
Proof.
  split.
  - apply (gfc_fcs30d_regional_or_unknown_year
             predefined_bboxes global_coverage_years 2021 0 1 0 1).
    reflexivity.
  - apply (gfc_fcs30d_regional_or_unknown_year
             predefined_bboxes [2020] 2019 (181 # 10) 20 (433 # 10) 50).
    + reflexivity.
    + unfold Spec.meets_region, Qle; simpl. lia.
Defined.

(** In the tables of the source every year with a predefined region is
    also a global-coverage year: with them, the region test is never
    reached and a year either gets its link or the not-available notice. *)
Lemma predefined_years_are_global (y : Z) (r : region) :
  dict_get predefined_bboxes y = Some r ->
  existsb (Z.eqb y) global_coverage_years = true.
Proof.
  unfold predefined_bboxes, global_coverage_years. cbn [dict_get existsb].
  destruct (y =? 2000); [reflexivity|].
  destruct (y =? 2005); [reflexivity|].
  destruct (y =? 2010); [reflexivity|].
  destruct (y =? 2015); [reflexivity|].
  destruct (y =? 2019); [reflexivity|].
  destruct (y =? 2022); [intros _; apply orb_true_r | discriminate].
Qed.

Lemma gfc_fcs30d_source_tables
    (year : Z) (min_lat max_lat min_lon max_lon : Q) :
  let map_year := if year =? 2024 then 2022 else year in
  get_links_gfc_fcs30d year min_lat max_lat min_lon max_lon
  = if existsb (Z.eqb map_year) global_coverage_years
    then ([gfc_fcs30d_link map_year], [])
    else ([], [Info_not_available map_year]).
Proof.
  intros map_year.
  unfold get_links_gfc_fcs30d, get_links_gfc_fcs30d_over. fold map_year.
  destruct (existsb (Z.eqb map_year) global_coverage_years) eqn:E; [reflexivity|].
  destruct (dict_get predefined_bboxes map_year) as [r|] eqn:D; [|reflexivity].
  apply predefined_years_are_global in D. congruence.
Qed.

End GfcFcs30d.

(** ** GLC_FCS30D_UNOFFICIAL *)

Section GlcFcs30dUnofficial.

Import LinkGenerator.

(** The cells the loop visits: from the quantized lower bound up to the
    quantized upper bound, that one included. *)
Lemma glc_fcs30d_unofficial_cells (min_lat max_lat min_lon max_lon : Q) :
  get_links_glc_fcs30d_unofficial min_lat max_lat min_lon max_lon
  = map glc_fcs30d_cell_link
      (Py.range (Z.max (-180) (Qfloor min_lon / 10 * 10))
                (Z.min 180 ((Qfloor max_lon + 9) / 10 * 10) + 1) 10).
Proof.
  unfold get_links_glc_fcs30d_unofficial, adjust_to_nearest_10.
  rewrite round_down_clamped, round_up_clamped, !int_inject_Z. reflexivity.
Qed.

(** C10. For a bounding box with [-180 <= min_lon <= max_lon <= 180] and
    any latitudes, [get_links_glc_fcs30d_unofficial] yields at least one
    link, the one of the cell that holds [min_lon]; this covers the box
    with [min_lon = max_lon]. When [max_lon] is an exact multiple of 10,
    the link of the cell that starts at [max_lon] is yielded as well. *)
Theorem glc_fcs30d_unofficial_never_empty
    (min_lat max_lat min_lon max_lon : Q) :
  (inject_Z (-180) <= min_lon)%Q ->
  (min_lon <= max_lon)%Q ->
  (max_lon <= inject_Z 180)%Q ->
  let links := get_links_glc_fcs30d_unofficial min_lat max_lat min_lon max_lon in
  links <> []
  /\ In (glc_fcs30d_cell_link (Qfloor min_lon / 10 * 10)) links
  /\ (forall k : Z, (max_lon == inject_Z (10 * k))%Q ->
                    In (glc_fcs30d_cell_link (10 * k)) links).
Proof.
  intros Hlo Hle Hhi links. subst links.
  rewrite glc_fcs30d_unofficial_cells.
  pose proof (Qfloor_lower _ _ Hlo) as Flo.
  pose proof (Qfloor_upper _ _ Hhi) as Fhi.
  pose proof (Qfloor_resp_le _ _ Hle) as Fle.
  assert (In (Qfloor min_lon / 10 * 10)
             (Py.range (Z.max (-180) (Qfloor min_lon / 10 * 10))
                (Z.min 180 ((Qfloor max_lon + 9) / 10 * 10) + 1) 10)) as Hfirst.
  { apply range_up_In; [lia|]. split.
    - grid_arith.
    - replace (Z.max (-180) (Qfloor min_lon / 10 * 10))
        with (Qfloor min_lon / 10 * 10) by grid_arith.
      now rewrite Z.sub_diag. }
  split; [|split].
  - intros E. apply (in_map glc_fcs30d_cell_link) in Hfirst.
    rewrite E in Hfirst. exact Hfirst.
  - apply in_map. exact Hfirst.
  - intros k Hk. apply in_map. apply range_up_In; [lia|].
    rewrite (Qfloor_aligned _ _ Hk) in *. split.
    + grid_arith.
    + grid_arith.
Qed.

(** The box reduced to the meridian 20 E: the cell that starts at 20 is
    its first cell and the cell that starts at its upper bound. *)
Lemma glc_fcs30d_unofficial_never_empty_witness :
  get_links_glc_fcs30d_unofficial 0 0 20 20 <> []
  /\ In (glc_fcs30d_cell_link 20) (get_links_glc_fcs30d_unofficial 0 0 20 20).
Proof.
  destruct (glc_fcs30d_unofficial_never_empty 0 0 20 20) as (Hne & _ & Hmax).
  - unfold Qle; simpl; lia.
  - unfold Qle; simpl; lia.
  - unfold Qle; simpl; lia.
  - split; [exact Hne|]. apply (Hmax 2). reflexivity.
Defined.

End GlcFcs30dUnofficial.

(** ** The 10-degree grid of FROM_GLC 2015 and GFC_TreeCover2000 *)

Section Grid.

Import LinkGenerator.

Lemma range_up_nonempty (a b s : Z) : 0 < s -> Py.range a b s <> [] <-> a < b.
Proof.
  intros Hs. split.
  - intros Hne. destruct (Py.range a b s) as [| x l] eqn:E; [congruence|].
    assert (In x (Py.range a b s)) as Hx by (rewrite E; now left).
    apply range_up_In in Hx; lia.
  - intros Hab E.
    assert (In a (Py.range a b s)) as Ha.
    { apply range_up_In; [lia|]. rewrite Z.sub_diag. split; [lia|reflexivity]. }
    rewrite E in Ha. exact Ha.
Qed.

Lemma range_down_nonempty (a b s : Z) : s < 0 -> Py.range a b s <> [] <-> b < a.
Proof.
  intros Hs. split.
  - intros Hne. destruct (Py.range a b s) as [| x l] eqn:E; [congruence|].
    assert (In x (Py.range a b s)) as Hx by (rewrite E; now left).
    apply range_down_In in Hx; lia.
  - intros Hab E.
    assert (In a (Py.range a b s)) as Ha.
    { apply range_down_In; [lia|]. rewrite Z.sub_diag. split; [lia|reflexivity]. }
    rewrite E in Ha. exact Ha.
Qed.

Lemma in_corners_between (lat_min lat_max lon_min lon_max lat lon : Z) :
  In (lat, lon) (Spec.corners_between lat_min lat_max lon_min lon_max)
  <-> In lat (Py.range lat_max lat_min (-10)) /\ In lon (Py.range lon_min lon_max 10).
Proof.
  unfold Spec.corners_between. rewrite in_flat_map. split.
  - intros (lat' & Hlat & Hin). apply in_map_iff in Hin as (lon' & E & Hlon).
    inversion E; subst. split; assumption.
  - intros [Hlat Hlon]. exists lat. split; [assumption|].
    apply in_map_iff. exists lon. split; [reflexivity | assumption].
Qed.

Lemma corners_between_nonempty (lat_min lat_max lon_min lon_max : Z) :
  Spec.corners_between lat_min lat_max lon_min lon_max <> []
  <-> lat_min < lat_max /\ lon_min < lon_max.
Proof.
  rewrite <- (range_down_nonempty lat_max lat_min (-10)) by lia.
  rewrite <- (range_up_nonempty lon_min lon_max 10) by lia.
  unfold Spec.corners_between.
  destruct (Py.range lat_max lat_min (-10)) as [| lat lats];
    destruct (Py.range lon_min lon_max 10) as [| lon lons]; simpl.
  - split; [congruence | tauto].
  - split; [congruence | tauto].
  - split; [|tauto]. intros H. exfalso. apply H.
    clear. induction lats; simpl; auto.
  - split; [intros _; split; discriminate | discriminate].
Qed.

Lemma treecover2000_corners (min_lat max_lat min_lon max_lon : Q) :
  fst (TreeCover2000.get_links_gfc_treecover2000 min_lat max_lat min_lon max_lon)
  = map TreeCover2000.link
      (Spec.corners_between
         (Z.max (-50) (Qfloor min_lat / 10 * 10))
         (Z.min 80 ((Qfloor max_lat + 9) / 10 * 10))
         (Z.max (-180) (Qfloor min_lon / 10 * 10))
         (Z.min 180 ((Qfloor max_lon + 9) / 10 * 10))).
Proof.
  unfold TreeCover2000.get_links_gfc_treecover2000,
    TreeCover2000.adjust_to_nearest_10, grid_corners, Spec.corners_between.
  cbn [fst]. rewrite !round_down_clamped, !round_up_clamped, !int_inject_Z.
  reflexivity.
Qed.

End Grid.

Section TreeCover.

Import LinkGenerator.

(** One axis: inside the clamp, and with an upper bound that the [+ 9]
    rounding does round up, the quantized interval is empty exactly when
    the axis is a single point on a grid line. *)
Lemma quantized_axis_nonempty (lo hi : Z) (vmin vmax : Q) :
  lo mod 10 = 0 -> hi mod 10 = 0 ->
  (inject_Z lo <= vmin)%Q -> (vmin <= vmax)%Q -> (vmax <= inject_Z hi)%Q ->
  Spec.just_above_grid_line vmax = false ->
  Z.max lo (Qfloor vmin / 10 * 10) < Z.min hi ((Qfloor vmax + 9) / 10 * 10)
  <-> ~ Spec.on_grid_line vmin vmax.
Proof.
  intros Hlo10 Hhi10 Hlo Hle Hhi Hgap.
  pose proof (Qfloor_lower _ _ Hlo) as Flo.
  pose proof (Qfloor_upper _ _ Hhi) as Fhi.
  pose proof (Qfloor_resp_le _ _ Hle) as Fle.
  split.
  - intros Hlt [Heq (k & Hk)].
    rewrite Heq in Hlt. rewrite (Qfloor_aligned _ _ Hk) in *.
    revert Hlt. grid_arith.
  - intros Hn.
    destruct (Z_lt_ge_dec (Z.max lo (Qfloor vmin / 10 * 10))
                          (Z.min hi ((Qfloor vmax + 9) / 10 * 10)))
      as [Hlt | Hge]; [exact Hlt | exfalso].
    assert (Qfloor vmax mod 10 = 0 /\ Qfloor vmin = Qfloor vmax) as [Hm Hf].
    { revert Hge Hlo10 Hhi10. grid_arith. }
    unfold Spec.just_above_grid_line in Hgap.
    rewrite Hm in Hgap. cbn [Z.eqb andb] in Hgap.
    apply negb_false_iff, Qeq_bool_iff in Hgap.
    apply Hn. split.
    + apply Qle_antisym; [exact Hle|].
      rewrite Hgap, <- Hf. apply Qfloor_le.
    + exists (Qfloor vmax / 10). rewrite Hgap at 1.
      apply inject_Z_injective. revert Hm. grid_arith.
Qed.

(** C8, as amended. For a bounding box inside the declared coverage whose
    [max_lat] and [max_lon] do not lie strictly between a multiple of 10
    and the next whole degree, [get_links_gfc_treecover2000] yields a
    non-empty list of links exactly when neither axis of the box is a
    single point on a grid line ([min_lat = max_lat], a multiple of 10, or
    [min_lon = max_lon], a multiple of 10): the quantized box is
    enumerated without its lower latitude and upper longitude bounds. *)
Theorem treecover2000_nonempty_inside_coverage
    (min_lat max_lat min_lon max_lon : Q) :
  Spec.inside_treecover_coverage min_lat max_lat min_lon max_lon ->
  Spec.just_above_grid_line max_lat = false ->
  Spec.just_above_grid_line max_lon = false ->
  fst (TreeCover2000.get_links_gfc_treecover2000 min_lat max_lat min_lon max_lon)
    <> []
  <-> ~ Spec.on_grid_line min_lat max_lat /\ ~ Spec.on_grid_line min_lon max_lon.
Proof.
  intros (Hlat_lo & Hlat & Hlat_hi & Hlon_lo & Hlon & Hlon_hi) Glat Glon.
  rewrite treecover2000_corners.
  rewrite <- (quantized_axis_nonempty (-50) 80 min_lat max_lat) by (assumption || reflexivity).
  rewrite <- (quantized_axis_nonempty (-180) 180 min_lon max_lon) by (assumption || reflexivity).
  rewrite <- corners_between_nonempty.
  split.
  - intros Hne E. apply Hne. rewrite E. reflexivity.
  - intros Hne E. apply Hne. apply map_eq_nil in E. exact E.
Qed.

(** The box 5 N - 15 N, 5 W - 5 E yields links. *)
Lemma treecover2000_nonempty_inside_coverage_witness :
  Spec.inside_treecover_coverage 5 15 (-5) 5
  /\ fst (TreeCover2000.get_links_gfc_treecover2000 5 15 (-5) 5) <> [].
Proof.
  assert (Spec.inside_treecover_coverage 5 15 (-5) 5) as Hc.
  { unfold Spec.inside_treecover_coverage, Qle; simpl. lia. }
  split; [exact Hc|].
  apply (treecover2000_nonempty_inside_coverage 5 15 (-5) 5 Hc);
    [reflexivity | reflexivity |].
  split; intros [Heq _]; revert Heq; unfold Qeq; simpl; lia.
Defined.

(** C8, as stated, fails on the box reduced to the grid point 10 N, 20 E,
    which lies inside the coverage: no link is yielded. *)
Lemma treecover2000_grid_point_yields_nothing :
  Spec.inside_treecover_coverage 10 10 20 20
  /\ fst (TreeCover2000.get_links_gfc_treecover2000 10 10 20 20) = [].
Proof.
  split; [|reflexivity].
  unfold Spec.inside_treecover_coverage, Qle; simpl. lia.
Qed.

(** Outside the amended statement: an upper bound just above a grid line
    is rounded down by [(value + 9) // 10], and the box 10.25 N - 10.5 N,
    20.25 E - 20.5 E, which has an interior, yields no link either. *)
Lemma treecover2000_upper_bound_rounded_down :
  (TreeCover2000.adjust_to_nearest_10 (21 # 2) true false == 10)%Q
  /\ fst (TreeCover2000.get_links_gfc_treecover2000
            (41 # 4) (21 # 2) (81 # 4) (41 # 2)) = [].
Proof. split; reflexivity. Qed.

End TreeCover.

(** ** FROM_GLC 2015: names of the tiles *)

Section TileNames.

Import LinkGenerator.

Lemma from_glc_2015_corners (min_lat max_lat min_lon max_lon : Q) :
  FromGlc2015.corners min_lat max_lat min_lon max_lon
  = Spec.corners_between
      (Z.max (-60) (Qfloor min_lat / 10 * 10))
      (Z.min 80 ((Qfloor max_lat + 9) / 10 * 10))
      (Z.max (-180) (Qfloor min_lon / 10 * 10))
      (Z.min 180 ((Qfloor max_lon + 9) / 10 * 10)).
Proof.
  unfold FromGlc2015.corners, FromGlc2015.adjust_to_nearest_10, grid_corners,
    Spec.corners_between.
  rewrite !round_down_clamped, !round_up_clamped, !int_inject_Z. reflexivity.
Qed.

Lemma script_2015_corners (min_lat max_lat min_lon max_lon : Q) :
  Download_FROM_GLC_2015.corners min_lat max_lat min_lon max_lon
  = FromGlc2015.corners min_lat max_lat min_lon max_lon.
Proof. reflexivity. Qed.

(** The resolver looks up, for each corner it visits, the name built by
    [tile_name]. *)
Lemma from_glc_2015_looks_up_tile_names
    (meta_data : list entry) (min_lat max_lat min_lon max_lon : Q) :
  fst (FromGlc2015.get_links_from_glc_2015 meta_data min_lat max_lat min_lon max_lon)
  = flat_map (fun corner => fst (FromGlc2015.lookup_tile meta_data corner))
      (FromGlc2015.corners min_lat max_lat min_lon max_lon).
Proof.
  unfold FromGlc2015.get_links_from_glc_2015, FromGlc2015.corners. cbn [fst].
  generalize (grid_corners (FromGlc2015.adjust_to_nearest_10 min_lat true true)
                (FromGlc2015.adjust_to_nearest_10 max_lat true false)
                (FromGlc2015.adjust_to_nearest_10 min_lon false true)
                (FromGlc2015.adjust_to_nearest_10 max_lon false false)) as cs.
  induction cs as [| c cs IH]; simpl; [reflexivity | now rewrite IH].
Qed.

(** Every corner visited is a corner of the grid. *)
Lemma from_glc_2015_corner_on_grid
    (min_lat max_lat min_lon max_lon : Q) (lat lon : Z) :
  In (lat, lon) (FromGlc2015.corners min_lat max_lat min_lon max_lon) ->
  In lat Spec.grid_latitudes /\ In lon Spec.grid_longitudes.
Proof.
  rewrite from_glc_2015_corners, in_corners_between.
  unfold Spec.grid_latitudes, Spec.grid_longitudes.
  rewrite range_down_In, range_up_In by lia.
  intros [[Hlat Hm] [Hlon Hn]].
  change (- (-10)) with 10 in Hm.
  split; [apply range_down_In | apply range_up_In]; try lia.
  - change (- (-10)) with 10.
    revert Hlat Hm. grid_arith.
  - revert Hlon Hn. grid_arith.
Qed.

Lemma tile_names_on_grid :
  forallb (fun lat =>
     forallb (fun lon =>
        String.eqb (tile_name lat lon) (Spec.tile_label lat lon)
        && String.eqb (Download_FROM_GLC_2015.name_of_corner lat lon)
                      (Spec.tile_label lat lon))
       Spec.grid_longitudes)
    Spec.grid_latitudes = true.
Proof. vm_compute. reflexivity. Qed.

(** C4, as amended. For every corner [(lat, lon)] that the FROM_GLC 2015
    resolver visits, in [link_generator.py] and in the 2015 script alike,
    the name looked up in the catalog is the longitude label followed by
    the latitude label and [.tif], where the longitude label is [|lon|] on
    three zero-padded digits followed by [E] or [W] and the latitude label
    is [|lat|] on two zero-padded digits followed by [N] or [S]: the
    hemisphere letters come after the digits. For [lon = 30], [lat = 10]
    the name is [030E10N.tif]. *)
Theorem from_glc_2015_tile_name
    (min_lat max_lat min_lon max_lon : Q) (lat lon : Z) :
  In (lat, lon) (FromGlc2015.corners min_lat max_lat min_lon max_lon)
  \/ In (lat, lon) (Download_FROM_GLC_2015.corners min_lat max_lat min_lon max_lon) ->
  tile_name lat lon = Spec.tile_label lat lon
  /\ Download_FROM_GLC_2015.name_of_corner lat lon = Spec.tile_label lat lon
  /\ tile_name 10 30 = "030E10N.tif"%string.
Proof.
  intros Hin.
  assert (In (lat, lon) (FromGlc2015.corners min_lat max_lat min_lon max_lon))
    as Hc by (destruct Hin as [Hin | Hin]; exact Hin).
  apply from_glc_2015_corner_on_grid in Hc as [Hlat Hlon].
  pose proof tile_names_on_grid as H.
  rewrite forallb_forall in H. specialize (H lat Hlat).
  rewrite forallb_forall in H. specialize (H lon Hlon).
  apply andb_true_iff in H as [H1 H2].
  apply String.eqb_eq in H1, H2. repeat split; assumption || reflexivity.
Qed.

(** The box 5 N - 10 N, 25 E - 35 E visits the corner (10, 30). *)
Lemma from_glc_2015_tile_name_witness :
  In (10, 30) (FromGlc2015.corners 5 10 25 35)
  /\ tile_name 10 30 = Spec.tile_label 10 30.
Proof.
  assert (In (10, 30) (FromGlc2015.corners 5 10 25 35)) as Hin.
  { vm_compute. tauto. }
  split; [exact Hin|].
  apply (from_glc_2015_tile_name 5 10 25 35 10 30). left. exact Hin.
Defined.

(** C4, as stated, fails on its own example: for [lon = 30], [lat = 10]
    the name looked up is [030E10N.tif], not [E030N10.tif]. *)
Lemma hemisphere_letters_follow_digits :
  tile_name 10 30 = "030E10N.tif"%string
  /\ tile_name 10 30 <> "E030N10.tif"%string
  /\ Download_FROM_GLC_2015.name_of_corner 10 30 <> "E030N10.tif"%string.
Proof. repeat split; discriminate || reflexivity. Qed.

End TileNames.

(** ** FROM_GLC 2017 *)

Section FromGlc2017Props.

Import LinkGenerator.

Lemma last_two_items {A} (l : list A) (a b : A) :
  Py.last_items 2 l = [a; b] <-> exists pre, l = pre ++ [a; b].
Proof.
  unfold Py.last_items. split.
  - intros H. exists (firstn (List.length l - 2) l).
    rewrite <- H. symmetry. apply firstn_skipn.
  - intros (pre & ->). rewrite length_app; simpl.
    replace (List.length pre + 2 - 2)%nat with (List.length pre + 0)%nat by lia.
    rewrite skipn_app, Nat.add_0_r, skipn_all.
    replace (List.length pre - List.length pre)%nat with 0%nat by lia.
    reflexivity.
Qed.

(** The parse of [link_generator.py] succeeds exactly on the names whose
    last two fields are integers. *)
Lemma parse_lat_lon_trailing (name_ : string) (lat lon : Z) :
  FromGlc2017.parse_lat_lon name_ = Py.Ok (lat, lon)
  <-> Spec.trailing_lat_lon name_ lat lon.
Proof.
  unfold FromGlc2017.parse_lat_lon, Spec.trailing_lat_lon.
  fold (Spec.name_fields name_). split.
  - destruct (Py.last_items 2 (Spec.name_fields name_))
      as [| a [| b [| c l]]] eqn:E; try discriminate.
    apply last_two_items in E as (pre & E).
    destruct (Py.int_of_str a) as [x|] eqn:Ea; [|discriminate].
    destruct (Py.int_of_str b) as [y|] eqn:Eb; [|discriminate].
    simpl. intros [= <- <-]. exists pre, a, b. auto.
  - intros (pre & a & b & E & Ea & Eb).
    rewrite (proj2 (last_two_items _ a b)) by (exists pre; exact E).
    rewrite Ea, Eb. reflexivity.
Qed.

Lemma inside_inside_box (min_lat max_lat min_lon max_lon : Q) (lat lon : Z) :
  FromGlc2017.inside min_lat max_lat min_lon max_lon lat lon = true
  <-> Spec.inside_box min_lat max_lat min_lon max_lon lat lon.
Proof.
  unfold FromGlc2017.inside, Spec.inside_box.
  rewrite !andb_true_iff, !Qle_bool_iff. tauto.
Qed.

Lemma script_matches_some_variant
    (min_lat max_lat min_lon max_lon : Q) (lat lon : Z) :
  Download_FROM_GLC_2017.matches min_lat max_lat min_lon max_lon lat lon = true
  <-> Spec.some_variant_inside min_lat max_lat min_lon max_lon lat lon.
Proof.
  unfold Download_FROM_GLC_2017.matches, Spec.some_variant_inside.
  rewrite !orb_true_iff.
  change Download_FROM_GLC_2017.inside with FromGlc2017.inside.
  rewrite !inside_inside_box. tauto.
Qed.

(** [link_generator.py]: an entry whose name parses is linked exactly when
    its own corner lies inside the box; the shifted variants are not
    looked at. *)
Lemma link_generator_2017_corner_only
    (ele : entry) (min_lat max_lat min_lon max_lon : Q) (lat lon : Z) :
  Py.endswith (name ele) ".tif" = true ->
  Spec.trailing_lat_lon (name ele) lat lon ->
  (FromGlc2017.visit min_lat max_lat min_lon max_lon ele = [FromGlc2017.link ele]
   /\ Spec.inside_box min_lat max_lat min_lon max_lon lat lon)
  \/ (FromGlc2017.visit min_lat max_lat min_lon max_lon ele = []
      /\ ~ Spec.inside_box min_lat max_lat min_lon max_lon lat lon).
Proof.
  intros Htif Hparse. apply parse_lat_lon_trailing in Hparse.
  unfold FromGlc2017.visit, FromGlc2017.try_block.
  rewrite Htif, Hparse. cbn [negb Py.bind].
  pose proof (inside_inside_box min_lat max_lat min_lon max_lon lat lon) as Hi.
  destruct (FromGlc2017.inside min_lat max_lat min_lon max_lon lat lon).
  - left. split; [reflexivity | now apply Hi].
  - right. split; [reflexivity|]. intros H. apply Hi in H. discriminate.
Qed.

(** The 2017 script: an entry whose name parses is linked exactly when one
    of the four variants lies inside the box. *)
Lemma script_2017_four_variants
    (ele : entry) (min_lat max_lat min_lon max_lon : Q) (lat lon : Z) :
  Py.endswith (name ele) ".tif" = true ->
  Download_FROM_GLC_2017.parse_lat_lon (name ele) = Py.Ok (lat, lon) ->
  (Download_FROM_GLC_2017.get_links_for_region [ele] min_lat max_lat min_lon max_lon
     = ([Download_FROM_GLC_2017.link ele], None)
   /\ Spec.some_variant_inside min_lat max_lat min_lon max_lon lat lon)
  \/ (Download_FROM_GLC_2017.get_links_for_region [ele] min_lat max_lat min_lon max_lon
        = ([], None)
      /\ ~ Spec.some_variant_inside min_lat max_lat min_lon max_lon lat lon).
Proof.
  intros Htif Hparse. cbn [Download_FROM_GLC_2017.get_links_for_region].
  rewrite Htif, Hparse. cbn [negb].
  pose proof (script_matches_some_variant min_lat max_lat min_lon max_lon lat lon) as Hm.
  destruct (Download_FROM_GLC_2017.matches min_lat max_lat min_lon max_lon lat lon).
  - left. split; [reflexivity | now apply Hm].
  - right. split; [reflexivity|]. intros H. apply Hm in H. discriminate.
Qed.

(** C1. A tile at [(lat = 10, lon = 20)] is claimed to match the box
    [11 <= lat <= 13], [21 <= lon <= 23] through its shifted variant
    [(12, 22)], and not to match the box [15 .. 17], [25 .. 27]. The 2017
    script yields the link for the first box and nothing for the second;
    [get_links_from_glc_2017] of [link_generator.py] tests the corner
    [(10, 20)] alone and yields nothing for the first box either. *)
Theorem from_glc_2017_shifted_variant_not_tested :
  let tile := Entry "7" "fromglc10v01_10_20.tif" in
  Spec.trailing_lat_lon (name tile) 10 20
  /\ Spec.some_variant_inside 11 13 21 23 10 20
  /\ FromGlc2017.get_links_from_glc_2017 [tile] 11 13 21 23 = []
  /\ Download_FROM_GLC_2017.get_links_for_region [tile] 11 13 21 23
     = ([Download_FROM_GLC_2017.link tile], None)
  /\ FromGlc2017.get_links_from_glc_2017 [tile] 15 17 25 27 = []
  /\ Download_FROM_GLC_2017.get_links_for_region [tile] 15 17 25 27 = ([], None).
Proof.
  cbv zeta. split.
  { exists ["fromglc10v01"%string], "10"%string, "20"%string.
    repeat split; reflexivity. }
  split.
  { right. right. right. unfold Spec.inside_box, Qle; simpl. lia. }
  repeat split; reflexivity.
Qed.

(** [link_generator.py]: an entry whose name does not parse adds nothing
    and does not stop the loop. *)
Lemma link_generator_2017_skips_unparseable
    (before after : list entry) (ele : entry) (e : Py.exn)
    (min_lat max_lat min_lon max_lon : Q) :
  FromGlc2017.parse_lat_lon (name ele) = Py.Raise e ->
  FromGlc2017.get_links_from_glc_2017 (before ++ ele :: after)
    min_lat max_lat min_lon max_lon
  = FromGlc2017.get_links_from_glc_2017 (before ++ after)
      min_lat max_lat min_lon max_lon.
Proof.
  intros Hparse. induction before as [| b before IH]; simpl.
  - unfold FromGlc2017.visit, FromGlc2017.try_block. rewrite Hparse.
    destruct (negb (Py.endswith (name ele) ".tif")); [reflexivity|].
    destruct e; reflexivity.
  - now rewrite IH.
Qed.

(** A name does not parse exactly when its last two fields are not two
    integers. *)
Lemma parse_lat_lon_raises (name_ : string) :
  (exists e, FromGlc2017.parse_lat_lon name_ = Py.Raise e)
  <-> ~ exists lat lon, Spec.trailing_lat_lon name_ lat lon.
Proof.
  split.
  - intros (e & He) (lat & lon & H). apply parse_lat_lon_trailing in H. congruence.
  - intros Hn. destruct (FromGlc2017.parse_lat_lon name_) as [[lat lon] | e] eqn:E.
    + exfalso. apply Hn. exists lat, lon. now apply parse_lat_lon_trailing.
    + now exists e.
Qed.

(** C9. An entry whose [.tif] name has no two trailing integer fields is
    claimed to be passed over without an error. In [link_generator.py] the
    [except] clause does so: the entry after [readme.tif] is still linked.
    In the 2017 script nothing catches the [ValueError]: the generator ends
    with it at [readme.tif] and the entry after it is never visited. *)
Theorem from_glc_2017_unparseable_name :
  let catalog := [Entry "8" "readme.tif"; Entry "7" "fromglc10v01_10_20.tif"] in
  FromGlc2017.parse_lat_lon "readme.tif" = Py.Raise Py.ValueError
  /\ FromGlc2017.get_links_from_glc_2017 catalog 9 11 19 21
     = ["https://data-starcloud.pcl.ac.cn/api/en/resourceFile/download/1/7"%string]
  /\ Download_FROM_GLC_2017.get_links_for_region catalog 9 11 19 21
     = ([], Some Py.ValueError)
  /\ Download_FROM_GLC_2017.get_links_for_region (tl catalog) 9 11 19 21
     = (["https://data-starcloud.pcl.ac.cn/api/en/resourceFile/download/1/7"%string],
        None).
Proof. cbv zeta. repeat split; reflexivity. Qed.

End FromGlc2017Props.

(** * Further properties of the resolvers *)

(** ** The quantizers on arbitrary values *)

Section Quantizers.

Import LinkGenerator.

Lemma round_down_idempotent (lo : Z) :
  lo mod 10 = 0 ->
  Spec.idempotent (fun v => Py.max (inject_Z lo) (Py.floordiv v 10 * inject_Z 10)).
Proof.
  intros Hlo v. rewrite !round_down_clamped, Qfloor_Z. f_equal.
  revert Hlo. grid_arith.
Qed.

Lemma round_up_idempotent (hi : Z) :
  hi mod 10 = 0 ->
  Spec.idempotent
    (fun v => Py.min (inject_Z hi) (Py.floordiv (v + inject_Z 9) 10 * inject_Z 10)).
Proof.
  intros Hhi v. rewrite !round_up_clamped, Qfloor_Z. f_equal.
  revert Hhi. grid_arith.
Qed.

(** Quantizing twice is quantizing once, for every value, clamped or not:
    each variant of [adjust_to_nearest_10], in each direction and on each
    axis, returns its own results unchanged. *)
Theorem adjust_to_nearest_10_idempotent :
  Spec.idempotent (fun v => adjust_to_nearest_10 v true)
  /\ Spec.idempotent (fun v => adjust_to_nearest_10 v false)
  /\ (forall is_latitude is_min,
        Spec.idempotent (fun v => FromGlc2015.adjust_to_nearest_10 v is_latitude is_min))
  /\ (forall is_latitude is_min,
        Spec.idempotent (fun v => TreeCover2000.adjust_to_nearest_10 v is_latitude is_min))
  /\ (forall is_latitude is_min,
        Spec.idempotent
          (fun v => Download_FROM_GLC_2015.adjust_to_nearest_10 v is_latitude is_min)).
Proof.
  split; [exact (round_down_idempotent (-180) eq_refl)|].
  split; [exact (round_up_idempotent 180 eq_refl)|].
  repeat split; intros [|] [|];
    unfold FromGlc2015.adjust_to_nearest_10, TreeCover2000.adjust_to_nearest_10,
      Download_FROM_GLC_2015.adjust_to_nearest_10;
    first [ apply round_down_idempotent; reflexivity
          | apply round_up_idempotent; reflexivity ].
Qed.

Lemma round_down_floors_to_grid (lo : Z) :
  lo mod 10 = 0 ->
  Spec.floors_to_grid
    (fun v => Py.max (inject_Z lo) (Py.floordiv v 10 * inject_Z 10)) lo.
Proof.
  intros Hlo v Hv. exists (Qfloor v / 10).
  pose proof (Qfloor_lower _ _ Hv) as Flo.
  rewrite round_down_clamped. split; [f_equal; revert Hlo; grid_arith|].
  split.
  - apply Qle_trans with (inject_Z (Qfloor v)); [|apply Qfloor_le].
    rewrite <- Zle_Qle. grid_arith.
  - apply Qlt_le_trans with (inject_Z (Qfloor v + 1)); [apply Qlt_floor|].
    rewrite <- Zle_Qle. grid_arith.
Qed.

(** [floor v] is a multiple of 10 and [v] is not whole: the reading of
    [just_above_grid_line]. *)
Lemma just_above_grid_line_spec (v : Q) :
  Spec.just_above_grid_line v = true
  <-> Qfloor v mod 10 = 0 /\ (inject_Z (Qfloor v) < v)%Q.
Proof.
  unfold Spec.just_above_grid_line.
  rewrite andb_true_iff, Z.eqb_eq, negb_true_iff.
  split; intros [Hm Hv]; (split; [exact Hm|]).
  - pose proof (Qfloor_le v) as Hle.
    apply Qle_lteq in Hle as [Hlt | Heq]; [exact Hlt|].
    apply Qeq_sym, Qeq_bool_iff in Heq. congruence.
  - destruct (Qeq_bool v (inject_Z (Qfloor v))) eqn:E; [|reflexivity].
    apply Qeq_bool_iff in E. rewrite <- E in Hv. now apply Qlt_irrefl in Hv.
Qed.

Lemma round_up_ceils_but_for_gap (hi : Z) :
  hi mod 10 = 0 ->
  Spec.ceils_to_grid_but_for_gap
    (fun v => Py.min (inject_Z hi) (Py.floordiv (v + inject_Z 9) 10 * inject_Z 10)) hi.
Proof.
  intros Hhi v Hv. exists ((Qfloor v + 9) / 10).
  pose proof (Qfloor_upper _ _ Hv) as Fhi.
  pose proof (Qfloor_le v) as Hfl. pose proof (Qlt_floor v) as Hfu.
  rewrite round_up_clamped. split; [f_equal; revert Hhi; grid_arith|].
  split; [|split].
  - apply Qlt_le_trans with (inject_Z (Qfloor v)); [|exact Hfl].
    rewrite <- Zlt_Qlt. grid_arith.
  - apply Qlt_le_trans with (inject_Z (Qfloor v + 1)); [exact Hfu|].
    rewrite <- Zle_Qle. grid_arith.
  - destruct (Spec.just_above_grid_line v) eqn:G.
    + apply just_above_grid_line_spec in G as [Gm Gv].
      split; [|discriminate]. intros Hle. exfalso.
      apply (Qlt_irrefl v). apply Qle_lt_trans with (inject_Z (Qfloor v)); [|exact Gv].
      apply Qle_trans with (inject_Z (10 * ((Qfloor v + 9) / 10))); [exact Hle|].
      rewrite <- Zle_Qle. revert Gm. grid_arith.
    + split; [reflexivity | intros _].
      destruct (Z.eq_dec (Qfloor v mod 10) 0) as [Gm | Gm].
      * unfold Spec.just_above_grid_line in G. rewrite Gm in G. cbn in G.
        apply negb_false_iff, Qeq_bool_iff in G. rewrite G at 1.
        rewrite <- Zle_Qle. grid_arith.
      * apply Qle_trans with (inject_Z (Qfloor v + 1)); [now apply Qlt_le_weak|].
        rewrite <- Zle_Qle. revert Gm. grid_arith.
Qed.

End Quantizers.

Section QuantizerVariants.

Import LinkGenerator.

(** Rounding down is a floor on the grid wherever the clamp does not act:
    for a value not below the lower clamp of its axis, each variant of
    [adjust_to_nearest_10] with [is_min=True] returns the multiple of 10
    that is at or below the value and less than ten degrees from it. *)
Theorem adjust_to_nearest_10_floors :
  Spec.floors_to_grid (fun v => adjust_to_nearest_10 v true) (-180)
  /\ Spec.floors_to_grid (fun v => FromGlc2015.adjust_to_nearest_10 v true true) (-60)
  /\ Spec.floors_to_grid (fun v => FromGlc2015.adjust_to_nearest_10 v false true) (-180)
  /\ Spec.floors_to_grid (fun v => TreeCover2000.adjust_to_nearest_10 v true true) (-50)
  /\ Spec.floors_to_grid (fun v => TreeCover2000.adjust_to_nearest_10 v false true) (-180)
  /\ Spec.floors_to_grid
       (fun v => Download_FROM_GLC_2015.adjust_to_nearest_10 v true true) (-60)
  /\ Spec.floors_to_grid
       (fun v => Download_FROM_GLC_2015.adjust_to_nearest_10 v false true) (-180).
Proof.
  repeat (split; [apply round_down_floors_to_grid; reflexivity|]).
  apply round_down_floors_to_grid; reflexivity.
Qed.

(** The latitude 45.5 is floored to 40 by the GFC_TreeCover2000 variant. *)
Lemma adjust_to_nearest_10_floors_witness :
  (inject_Z (-50) <= 91 # 2)%Q
  /\ TreeCover2000.adjust_to_nearest_10 (91 # 2) true true = inject_Z 40.
Proof.
  assert (inject_Z (-50) <= 91 # 2)%Q as H by (unfold Qle; simpl; lia).
  split; [exact H|].
  destruct adjust_to_nearest_10_floors as (_ & _ & _ & Ht & _).
  destruct (Ht (91 # 2) H) as (k & Hk & _). reflexivity.
Defined.



End QuantizerVariants.

(** ** GSW *)

Section Gsw.

Import LinkGenerator.

(** [int()] is the floor of a value that is not negative and the ceiling
    of a value that is not positive. *)
Lemma int_floor_ceiling (v : Q) :
  (0 <= Qnum v -> Py.int v = Qfloor v)
  /\ (Qnum v <= 0 -> Py.int v = Qceiling v).
Proof.
  destruct v as [n p]. unfold Py.int, Qceiling, Qfloor, Qopp; simpl. split; intros H.
  - apply Z.quot_div_nonneg; lia.
  - rewrite <- (Z.opp_involutive n) at 1.
    rewrite Z.quot_opp_l by lia. f_equal. apply Z.quot_div_nonneg; lia.
Qed.

Lemma int_monotone (v w : Q) : (v <= w)%Q -> Py.int v <= Py.int w.
Proof.
  intros Hvw.
  destruct (int_floor_ceiling v) as [Vf Vc], (int_floor_ceiling w) as [Wf Wc].
  destruct (Z_le_gt_dec 0 (Qnum v)) as [Hv | Hv].
  - assert (0 <= Qnum w) as Hw.
    { unfold Qle in Hvw.
      pose proof (Pos2Z.is_pos (Qden v)). pose proof (Pos2Z.is_pos (Qden w)). nia. }
    rewrite Vf, Wf by assumption. now apply Qfloor_resp_le.
  - destruct (Z_le_gt_dec 0 (Qnum w)) as [Hw | Hw].
    + rewrite Vc, Wf by lia.
      assert (Qceiling v <= 0).
      { change 0 with (Qceiling 0). apply Qceiling_resp_le.
        unfold Qle; simpl. lia. }
      assert (0 <= Qfloor w).
      { change 0 with (Qfloor 0). apply Qfloor_resp_le.
        unfold Qle; simpl. lia. }
      lia.
    + rewrite Vc, Wc by lia. now apply Qceiling_resp_le.
Qed.

Lemma decval_le (v w : Q) :
  (v <= w)%Q -> _get_left_decval v <= _get_left_decval w.
Proof.
  intros Hvw. rewrite !get_left_decval_floors_truncation.
  pose proof (int_monotone v w Hvw) as Hi.
  pose proof (Z.div_le_mono (Py.int v) (Py.int w) 10 ltac:(lia) Hi). lia.
Qed.

Lemma decval_cell (v : Q) :
  _get_left_decval v mod 10 = 0
  /\ _get_left_decval v <= Py.int v < _get_left_decval v + 10.
Proof. rewrite get_left_decval_floors_truncation. grid_arith. Qed.

(** [_get_left_decval] never decreases: a larger coordinate is never sent to
    a grid line further left, so the loops of [get_links_gsw] run from the
    cell of the lower bound to the cell of the upper bound. *)
Theorem get_left_decval_monotone (v w : Q) :
  (v <= w)%Q -> _get_left_decval v <= _get_left_decval w.
Proof. exact (decval_le v w). Qed.

Lemma get_left_decval_monotone_witness :
  (- 1 # 2 <= 25)%Q /\ _get_left_decval (- 1 # 2) <= _get_left_decval 25.
Proof.
  assert (- 1 # 2 <= 25)%Q as H by (unfold Qle; simpl; lia).
  split; [exact H | exact (get_left_decval_monotone _ _ H)].
Defined.

(** [_get_left_decval] returns a multiple of 10, and the whole part of the
    value (the value with its fraction cut off) lies in the ten degrees that
    start there. *)
Theorem get_left_decval_cell (v : Q) :
  _get_left_decval v mod 10 = 0
  /\ _get_left_decval v <= Py.int v < _get_left_decval v + 10.
Proof. exact (decval_cell v). Qed.

End Gsw.

Section GswCorners.

Import LinkGenerator.

Lemma range_length (a b s : Z) :
  List.length (Py.range a b s) = Py.range_len a b s.
Proof. unfold Py.range. now rewrite length_map, length_seq. Qed.

Lemma in_gsw_corners (min_lat max_lat min_lon max_lon : Q) (lat lon : Z) :
  In (lat, lon) (gsw_corners min_lat max_lat min_lon max_lon)
  <-> (lat mod 10 = 0 /\ _get_left_decval min_lat <= lat <= _get_left_decval max_lat)
      /\ (lon mod 10 = 0 /\ _get_left_decval min_lon <= lon <= _get_left_decval max_lon).
Proof.
  unfold gsw_corners. rewrite in_flat_map.
  pose proof (decval_cell min_lat) as [Hlat0 _].
  pose proof (decval_cell min_lon) as [Hlon0 _].
  pose proof (decval_cell max_lat) as [Hlat1 _].
  pose proof (decval_cell max_lon) as [Hlon1 _].
  split.
  - intros (lon' & Hlon & Hin). apply in_map_iff in Hin as (lat' & E & Hlat).
    inversion E; subst lat' lon'.
    apply range_up_In in Hlon, Hlat; try lia.
    revert Hlat0 Hlon0 Hlat1 Hlon1 Hlat Hlon. grid_arith.
  - intros [[Hm1 Hlat] [Hm2 Hlon]]. exists lon. split.
    + apply range_up_In; [lia|]. split; [lia|]. revert Hlon0 Hm2. grid_arith.
    + apply in_map_iff. exists lat. split; [reflexivity|].
      apply range_up_In; [lia|]. split; [lia|]. revert Hlat0 Hm1. grid_arith.
Qed.

(** The tiles of [get_links_gsw] are exactly the cells of the 10-degree
    grid between the cell of the lower bounds and the cell of the upper
    bounds, both included: a corner is visited if and only if both its
    coordinates are multiples of 10 lying between [_get_left_decval] of the
    lower bound and [_get_left_decval] of the upper bound. *)
Theorem gsw_corners_between_bounds
    (min_lat max_lat min_lon max_lon : Q) (lat lon : Z) :
  In (lat, lon) (gsw_corners min_lat max_lat min_lon max_lon)
  <-> lat mod 10 = 0 /\ lon mod 10 = 0
      /\ _get_left_decval min_lat <= lat <= _get_left_decval max_lat
      /\ _get_left_decval min_lon <= lon <= _get_left_decval max_lon.
Proof. rewrite in_gsw_corners. tauto. Qed.

(** For every point of the bounding box, [get_links_gsw] yields the link of
    the cell that [_get_left_decval] gives to the point; in particular a
    box with [min <= max] on both axes never yields an empty list. *)
Theorem get_links_gsw_yields_cell_of_point
    (year : Z) (min_lat max_lat min_lon max_lon p_lat p_lon : Q) :
  (min_lat <= p_lat)%Q -> (p_lat <= max_lat)%Q ->
  (min_lon <= p_lon)%Q -> (p_lon <= max_lon)%Q ->
  let '(row, col) := gsw_indices (_get_left_decval p_lat) (_get_left_decval p_lon) in
  In (gsw_link year row col) (get_links_gsw year min_lat max_lat min_lon max_lon).
Proof.
  intros H1 H2 H3 H4.
  destruct (gsw_indices (_get_left_decval p_lat) (_get_left_decval p_lon))
    as [row col] eqn:E.
  unfold get_links_gsw. apply in_map_iff.
  exists (_get_left_decval p_lat, _get_left_decval p_lon). cbn [fst snd].
  rewrite E. split; [reflexivity|].
  apply in_gsw_corners.
  pose proof (decval_cell p_lat) as [Hm1 _].
  pose proof (decval_cell p_lon) as [Hm2 _].
  repeat split; try assumption; now apply decval_le.
Qed.

(** The box 45.5 N - 46 N, 9 E - 11.5 E holds the point 45.75 N, 10 E. *)
Lemma get_links_gsw_yields_cell_of_point_witness :
  (91 # 2 <= 183 # 4)%Q /\ (183 # 4 <= 46)%Q
  /\ In (gsw_link 2021 12 76) (get_links_gsw 2021 (91 # 2) 46 9 (23 # 2)).
Proof.
  split; [unfold Qle; simpl; lia|]. split; [unfold Qle; simpl; lia|].
  apply (get_links_gsw_yields_cell_of_point 2021 (91 # 2) 46 9 (23 # 2) (183 # 4) 10);
    unfold Qle; simpl; lia.
Defined.

(** The number of links of [get_links_gsw] is the number of grid columns
    times the number of grid rows between the bounds. *)
Theorem get_links_gsw_count (year : Z) (min_lat max_lat min_lon max_lon : Q) :
  (min_lat <= max_lat)%Q -> (min_lon <= max_lon)%Q ->
  Z.of_nat (List.length (get_links_gsw year min_lat max_lat min_lon max_lon))
  = ((_get_left_decval max_lon - _get_left_decval min_lon) / 10 + 1)
    * ((_get_left_decval max_lat - _get_left_decval min_lat) / 10 + 1).
Proof.
  intros Hlat Hlon.
  apply decval_le in Hlat, Hlon.
  unfold get_links_gsw, gsw_corners. rewrite length_map.
  rewrite (flat_map_constant_length
             (c := Py.range_len (_get_left_decval min_lat)
                     (_get_left_decval max_lat + 10) 10)).
  2:{ intros lon _. now rewrite length_map, range_length. }
  rewrite range_length, Nat2Z.inj_mul. unfold Py.range_len.
  replace (0 <? 10) with true by reflexivity.
  destruct (Z.ltb_spec (_get_left_decval min_lon) (_get_left_decval max_lon + 10));
    [|lia].
  destruct (Z.ltb_spec (_get_left_decval min_lat) (_get_left_decval max_lat + 10));
    [|lia].
  rewrite !Z2Nat.id by (apply Z.add_nonneg_nonneg; [apply Z.div_pos|]; lia).
  pose proof (decval_cell min_lat) as [Hlat0 _].
  pose proof (decval_cell min_lon) as [Hlon0 _].
  pose proof (decval_cell max_lat) as [Hlat1 _].
  pose proof (decval_cell max_lon) as [Hlon1 _].
  f_equal; [revert Hlon0 Hlon1 | revert Hlat0 Hlat1]; grid_arith.
Qed.

Lemma get_links_gsw_count_witness :
  Z.of_nat (List.length (get_links_gsw 2021 (91 # 2) 46 9 (23 # 2))) = 2.
Proof.
  rewrite (get_links_gsw_count 2021 (91 # 2) 46 9 (23 # 2));
    [reflexivity | unfold Qle; simpl; lia | unfold Qle; simpl; lia].
Defined.

(** On the corners that are visited the two floor divisions of the tile
    indices are exact, four index steps for ten degrees, so two different
    corners never get the same pair of indices. *)
Theorem gsw_indices_exact_and_distinct
    (min_lat max_lat min_lon max_lon : Q) (c1 c2 : Z * Z) :
  In c1 (gsw_corners min_lat max_lat min_lon max_lon) ->
  In c2 (gsw_corners min_lat max_lat min_lon max_lon) ->
  10 * fst (gsw_indices (fst c1) (snd c1)) = 4 * (70 - fst c1)
  /\ 10 * snd (gsw_indices (fst c1) (snd c1)) = 4 * (snd c1 + 180)
  /\ (gsw_indices (fst c1) (snd c1) = gsw_indices (fst c2) (snd c2) -> c1 = c2).
Proof.
  destruct c1 as [lat1 lon1], c2 as [lat2 lon2]. cbn [fst snd].
  rewrite !in_gsw_corners. intros [[Ha1 _] [Ho1 _]] [[Ha2 _] [Ho2 _]].
  unfold gsw_indices. cbn [fst snd].
  split; [revert Ha1; grid_arith|]. split; [revert Ho1; grid_arith|].
  intros E.
  pose proof (f_equal fst E) as E1. pose proof (f_equal snd E) as E2.
  cbn [fst snd] in E1, E2. clear E. f_equal.
  - revert Ha1 Ha2 E1. grid_arith.
  - revert Ho1 Ho2 E2. grid_arith.
Qed.

Lemma gsw_indices_exact_and_distinct_witness :
  10 * fst (gsw_indices 40 0) = 4 * (70 - 40)
  /\ 10 * snd (gsw_indices 40 0) = 4 * (0 + 180).
Proof.
  destruct (gsw_indices_exact_and_distinct (91 # 2) 46 9 (23 # 2) (40, 0) (40, 10))
    as (H1 & H2 & _).
  - vm_compute. left. reflexivity.
  - vm_compute. right. left. reflexivity.
  - split; [exact H1 | exact H2].
Defined.

End GswCorners.

(** ** The visited cells cover the box *)

Section Cover.

Import LinkGenerator.

(** The quantized upper bound is not under the upper bound, unless the
    bound is just above a grid line. *)
Lemma quantized_upper_bound (hi : Z) (v : Q) :
  hi mod 10 = 0 -> (v <= inject_Z hi)%Q ->
  Spec.just_above_grid_line v = false ->
  (v <= inject_Z (Z.min hi ((Qfloor v + 9) / 10 * 10)))%Q.
Proof.
  intros Hhi Hv Hgap.
  destruct (round_up_ceils_but_for_gap hi Hhi v Hv) as (k & Hk & _ & _ & Hiff).
  rewrite round_up_clamped in Hk. rewrite Hk. now apply Hiff.
Qed.

(** The latitude axis: some visited latitude has the point in the ten
    degrees under it. *)
Lemma latitude_axis_covered (lo hi : Z) (vmin vmax p : Q) :
  lo mod 10 = 0 -> hi mod 10 = 0 ->
  (inject_Z lo <= vmin)%Q -> (vmin <= p)%Q -> (p <= vmax)%Q ->
  (vmax <= inject_Z hi)%Q ->
  Spec.just_above_grid_line vmax = false ->
  ~ Spec.on_grid_line vmin vmax ->
  exists lat,
    In lat (Py.range (Z.min hi ((Qfloor vmax + 9) / 10 * 10))
                     (Z.max lo (Qfloor vmin / 10 * 10)) (-10))
    /\ (inject_Z (lat - 10) <= p)%Q /\ (p <= inject_Z lat)%Q.
Proof.
  intros Hlo10 Hhi10 Hlo Hminp Hpmax Hhi Hgap Hline.
  assert (vmin <= vmax)%Q as Hle by (eapply Qle_trans; eauto).
  apply (quantized_axis_nonempty lo hi vmin vmax) in Hline; try assumption.
  pose proof (quantized_upper_bound hi vmax Hhi10 Hhi Hgap) as Hub.
  set (A := Z.max lo (Qfloor vmin / 10 * 10)) in *.
  set (B := Z.min hi ((Qfloor vmax + 9) / 10 * 10)) in *.
  assert (A mod 10 = 0 /\ B mod 10 = 0) as [HA HB].
  { subst A B. revert Hlo10 Hhi10. grid_arith. }
  assert (A <= Qfloor vmin) as HAmin.
  { subst A. pose proof (Qfloor_lower _ _ Hlo). revert Hlo10. grid_arith. }
  assert (inject_Z A <= p)%Q as HAp.
  { apply Qle_trans with (inject_Z (Qfloor vmin)); [now rewrite <- Zle_Qle|].
    apply Qle_trans with vmin; [apply Qfloor_le | exact Hminp]. }
  assert (Qceiling p <= B) as HCB.
  { rewrite <- (Qceiling_Z B). apply Qceiling_resp_le.
    eapply Qle_trans; eauto. }
  pose proof (Qle_ceiling p) as HpC. pose proof (Qceiling_lt p) as HCp.
  set (C := Qceiling p) in *.
  exists (Z.max ((C + 9) / 10 * 10) (A + 10)). split; [|split].
  - apply range_down_In; [lia|]. change (- (-10)) with 10.
    revert HA HB Hline HCB. grid_arith.
  - destruct (Z.max_spec ((C + 9) / 10 * 10) (A + 10)) as [[_ ->] | [_ ->]].
    + now replace (A + 10 - 10) with A by lia.
    + apply Qle_trans with (inject_Z (C - 1)); [|now apply Qlt_le_weak].
      rewrite <- Zle_Qle. grid_arith.
  - apply Qle_trans with (inject_Z C); [exact HpC|].
    rewrite <- Zle_Qle. grid_arith.
Qed.

(** The longitude axis: some visited longitude has the point in the ten
    degrees above it. *)
Lemma longitude_axis_covered (lo hi : Z) (vmin vmax p : Q) :
  lo mod 10 = 0 -> hi mod 10 = 0 ->
  (inject_Z lo <= vmin)%Q -> (vmin <= p)%Q -> (p <= vmax)%Q ->
  (vmax <= inject_Z hi)%Q ->
  Spec.just_above_grid_line vmax = false ->
  ~ Spec.on_grid_line vmin vmax ->
  exists lon,
    In lon (Py.range (Z.max lo (Qfloor vmin / 10 * 10))
                     (Z.min hi ((Qfloor vmax + 9) / 10 * 10)) 10)
    /\ (inject_Z lon <= p)%Q /\ (p <= inject_Z (lon + 10))%Q.
Proof.
  intros Hlo10 Hhi10 Hlo Hminp Hpmax Hhi Hgap Hline.
  assert (vmin <= vmax)%Q as Hle by (eapply Qle_trans; eauto).
  apply (quantized_axis_nonempty lo hi vmin vmax) in Hline; try assumption.
  pose proof (quantized_upper_bound hi vmax Hhi10 Hhi Hgap) as Hub.
  set (A := Z.max lo (Qfloor vmin / 10 * 10)) in *.
  set (B := Z.min hi ((Qfloor vmax + 9) / 10 * 10)) in *.
  assert (A mod 10 = 0 /\ B mod 10 = 0) as [HA HB].
  { subst A B. revert Hlo10 Hhi10. grid_arith. }
  assert (A <= Qfloor p) as HAD.
  { subst A. pose proof (Qfloor_lower _ _ Hlo).
    pose proof (Qfloor_resp_le _ _ Hminp). revert Hlo10. grid_arith. }
  pose proof (Qfloor_le p) as HDp. pose proof (Qlt_floor p) as HpD.
  set (D := Qfloor p) in *.
  exists (Z.min (D / 10 * 10) (B - 10)). split; [|split].
  - apply range_up_In; [lia|]. revert HA HB Hline HAD. grid_arith.
  - apply Qle_trans with (inject_Z D); [|exact HDp].
    rewrite <- Zle_Qle. grid_arith.
  - destruct (Z.min_spec (D / 10 * 10) (B - 10)) as [[_ ->] | [_ ->]].
    + apply Qle_trans with (inject_Z (D + 1)); [now apply Qlt_le_weak|].
      rewrite <- Zle_Qle. grid_arith.
    + replace (B - 10 + 10) with B by lia. eapply Qle_trans; eauto.
Qed.

(** Coverage of GFC_TreeCover2000. Take a bounding box inside the declared
    coverage, whose upper bounds are not just above a grid line and none of
    whose axes is a single point on a grid line. Then every point of the box
    lies in a cell whose link [get_links_gfc_treecover2000] yields. *)
Theorem treecover2000_covers_box
    (min_lat max_lat min_lon max_lon p_lat p_lon : Q) :
  Spec.inside_treecover_coverage min_lat max_lat min_lon max_lon ->
  Spec.just_above_grid_line max_lat = false ->
  Spec.just_above_grid_line max_lon = false ->
  ~ Spec.on_grid_line min_lat max_lat -> ~ Spec.on_grid_line min_lon max_lon ->
  (min_lat <= p_lat)%Q -> (p_lat <= max_lat)%Q ->
  (min_lon <= p_lon)%Q -> (p_lon <= max_lon)%Q ->
  exists corner,
    Spec.cell_holds corner p_lat p_lon
    /\ In (TreeCover2000.link corner)
          (fst (TreeCover2000.get_links_gfc_treecover2000
                  min_lat max_lat min_lon max_lon)).
Proof.
  intros (Hlat_lo & _ & Hlat_hi & Hlon_lo & _ & Hlon_hi) Glat Glon Llat Llon
         P1 P2 P3 P4.
  destruct (latitude_axis_covered (-50) 80 min_lat max_lat p_lat)
    as (lat & Hlat & Hl1 & Hl2); try assumption; try reflexivity.
  destruct (longitude_axis_covered (-180) 180 min_lon max_lon p_lon)
    as (lon & Hlon & Ho1 & Ho2); try assumption; try reflexivity.
  exists (lat, lon). split; [repeat split; assumption|].
  rewrite treecover2000_corners. apply in_map, in_corners_between. now split.
Qed.

(** The box 5 N - 15 N, 5 W - 5 E and its point 10 N, 0 E, which is on two
    grid lines. *)
Lemma treecover2000_covers_box_witness :
  exists corner,
    Spec.cell_holds corner 10 0
    /\ In (TreeCover2000.link corner)
          (fst (TreeCover2000.get_links_gfc_treecover2000 5 15 (-5) 5)).
Proof.
  apply (treecover2000_covers_box 5 15 (-5) 5 10 0);
    try reflexivity;
    try (unfold Qle; simpl; lia);
    try (intros [Heq _]; revert Heq; unfold Qeq; simpl; lia).
  unfold Spec.inside_treecover_coverage, Qle; simpl. lia.
Defined.

(** Coverage of FROM_GLC 2015, under the same conditions inside its clamp
    range: every point of the box lies in a cell that the resolver visits,
    and when the catalog has an entry with the name of that cell, the link
    of the first such entry is yielded. *)
Theorem from_glc_2015_covers_box
    (meta_data : list entry)
    (min_lat max_lat min_lon max_lon p_lat p_lon : Q) :
  Spec.inside_from_glc_2015_range min_lat max_lat min_lon max_lon ->
  Spec.just_above_grid_line max_lat = false ->
  Spec.just_above_grid_line max_lon = false ->
  ~ Spec.on_grid_line min_lat max_lat -> ~ Spec.on_grid_line min_lon max_lon ->
  (min_lat <= p_lat)%Q -> (p_lat <= max_lat)%Q ->
  (min_lon <= p_lon)%Q -> (p_lon <= max_lon)%Q ->
  exists corner,
    Spec.cell_holds corner p_lat p_lon
    /\ In corner (FromGlc2015.corners min_lat max_lat min_lon max_lon)
    /\ forall ele,
         find (fun e => String.eqb (name e) (tile_name (fst corner) (snd corner)))
              meta_data = Some ele ->
         In (FromGlc2015.link ele)
            (fst (FromGlc2015.get_links_from_glc_2015
                    meta_data min_lat max_lat min_lon max_lon)).
Proof.
  intros (Hlat_lo & _ & Hlat_hi & Hlon_lo & _ & Hlon_hi) Glat Glon Llat Llon
         P1 P2 P3 P4.
  destruct (latitude_axis_covered (-60) 80 min_lat max_lat p_lat)
    as (lat & Hlat & Hl1 & Hl2); try assumption; try reflexivity.
  destruct (longitude_axis_covered (-180) 180 min_lon max_lon p_lon)
    as (lon & Hlon & Ho1 & Ho2); try assumption; try reflexivity.
  assert (In (lat, lon) (FromGlc2015.corners min_lat max_lat min_lon max_lon))
    as Hin.
  { rewrite from_glc_2015_corners. apply in_corners_between. now split. }
  exists (lat, lon). split; [repeat split; assumption|]. split; [exact Hin|].
  intros ele Hfind. rewrite from_glc_2015_looks_up_tile_names.
  apply in_flat_map. exists (lat, lon). split; [exact Hin|].
  unfold FromGlc2015.lookup_tile. rewrite Hfind. now left.
Qed.

Lemma from_glc_2015_covers_box_witness :
  exists corner,
    Spec.cell_holds corner 7 30
    /\ In corner (FromGlc2015.corners 5 10 25 35).
Proof.
  destruct (from_glc_2015_covers_box [] 5 10 25 35 7 30) as (c & Hc & Hin & _);
    try reflexivity;
    try (unfold Qle; simpl; lia);
    try (intros [Heq _]; revert Heq; unfold Qeq; simpl; lia).
  - unfold Spec.inside_from_glc_2015_range, Qle; simpl. lia.
  - exists c. split; assumption.
Defined.

End Cover.

(** ** FROM_GLC 2015: what is yielded *)

Section FromGlc2015Links.

Import LinkGenerator.


(** Every visited corner is accounted for once: it gives one link or one
    no-data message, so the links and the messages together are as many as
    the corners, plus the message on the adjusted boundary. *)
Theorem from_glc_2015_every_corner_accounted
    (meta_data : list entry) (min_lat max_lat min_lon max_lon : Q) :
  let out := FromGlc2015.get_links_from_glc_2015
               meta_data min_lat max_lat min_lon max_lon in
  (List.length (fst out) + List.length (snd out)
   = S (List.length (FromGlc2015.corners min_lat max_lat min_lon max_lon)))%nat.
Proof.
  unfold FromGlc2015.get_links_from_glc_2015, FromGlc2015.corners. cbn [fst snd].
  generalize (grid_corners (FromGlc2015.adjust_to_nearest_10 min_lat true true)
                (FromGlc2015.adjust_to_nearest_10 max_lat true false)
                (FromGlc2015.adjust_to_nearest_10 min_lon false true)
                (FromGlc2015.adjust_to_nearest_10 max_lon false false)) as cs.
  intros cs. cbn [List.length]. rewrite Nat.add_succ_r. f_equal.
  induction cs as [| c cs IH]; [reflexivity|].
  cbn [map flat_map]. rewrite !length_app. cbn [List.length].
  unfold FromGlc2015.lookup_tile at 1 3.
  destruct (find _ meta_data); cbn [fst snd List.length]; lia.
Qed.

(** The resolver of [link_generator.py] and [get_links_for_region] of the
    2015 script yield the same links, in the same order, for every catalog
    and every bounding box. *)
Theorem from_glc_2015_same_links_as_script
    (meta_data : list entry) (min_lat max_lat min_lon max_lon : Q) :
  fst (FromGlc2015.get_links_from_glc_2015 meta_data min_lat max_lat min_lon max_lon)
  = Download_FROM_GLC_2015.get_links_for_region
      meta_data min_lat max_lat min_lon max_lon.
Proof.
  rewrite from_glc_2015_looks_up_tile_names.
  unfold Download_FROM_GLC_2015.get_links_for_region.
  change (Download_FROM_GLC_2015.corners min_lat max_lat min_lon max_lon)
    with (FromGlc2015.corners min_lat max_lat min_lon max_lon).
  apply flat_map_ext. intros corner.
  unfold FromGlc2015.lookup_tile.
  change (Download_FROM_GLC_2015.name_of_corner (fst corner) (snd corner))
    with (tile_name (fst corner) (snd corner)).
  destruct (find _ meta_data); reflexivity.
Qed.

End FromGlc2015Links.

(** ** FROM_GLC 2017: the two resolvers side by side *)

Section FromGlc2017Both.

Import LinkGenerator.

(** A name that the script parses is parsed to the same pair by
    [link_generator.py]. *)
Lemma script_parse_implies_parse (name_ : string) (lat lon : Z) :
  Download_FROM_GLC_2017.parse_lat_lon name_ = Py.Ok (lat, lon) ->
  FromGlc2017.parse_lat_lon name_ = Py.Ok (lat, lon).
Proof.
  unfold Download_FROM_GLC_2017.parse_lat_lon, FromGlc2017.parse_lat_lon,
    Py.items_from, Py.last_items.
  destruct (Py.split "_" (hd EmptyString (Py.split "." name_)))
    as [| f [| a [| b [| c l]]]]; cbn; try discriminate.
  auto.
Qed.

(** Running the script on two catalogs one after the other. *)
Lemma script_2017_app (l1 l2 : list entry) (min_lat max_lat min_lon max_lon : Q) :
  Download_FROM_GLC_2017.get_links_for_region (l1 ++ l2)
    min_lat max_lat min_lon max_lon
  = match snd (Download_FROM_GLC_2017.get_links_for_region l1
                 min_lat max_lat min_lon max_lon) with
    | None =>
        (fst (Download_FROM_GLC_2017.get_links_for_region l1
                min_lat max_lat min_lon max_lon)
           ++ fst (Download_FROM_GLC_2017.get_links_for_region l2
                     min_lat max_lat min_lon max_lon),
         snd (Download_FROM_GLC_2017.get_links_for_region l2
                min_lat max_lat min_lon max_lon))
    | Some e =>
        Download_FROM_GLC_2017.get_links_for_region l1
          min_lat max_lat min_lon max_lon
    end.
Proof.
  induction l1 as [| ele l1 IH]; cbn [app Download_FROM_GLC_2017.get_links_for_region].
  - cbn. now destruct (Download_FROM_GLC_2017.get_links_for_region l2 _ _ _ _).
  - destruct (negb (Py.endswith (name ele) ".tif")); [exact IH|].
    destruct (Download_FROM_GLC_2017.parse_lat_lon (name ele)) as [[lat lon] | e];
      [|reflexivity].
    rewrite IH.
    destruct (Download_FROM_GLC_2017.get_links_for_region l1 _ _ _ _)
      as [ys [e1|]]; cbn [fst snd];
      destruct (Download_FROM_GLC_2017.matches _ _ _ _ lat lon); reflexivity.
Qed.

(** The 2017 script keeps what it yielded before a [.tif] name it cannot
    parse, ends with the error of that name, and never looks at the entries
    after it. *)
Theorem script_2017_stops_at_unparseable_name
    (before after : list entry) (bad : entry) (e : Py.exn)
    (min_lat max_lat min_lon max_lon : Q) :
  snd (Download_FROM_GLC_2017.get_links_for_region before
         min_lat max_lat min_lon max_lon) = None ->
  Py.endswith (name bad) ".tif" = true ->
  Download_FROM_GLC_2017.parse_lat_lon (name bad) = Py.Raise e ->
  Download_FROM_GLC_2017.get_links_for_region (before ++ bad :: after)
    min_lat max_lat min_lon max_lon
  = (fst (Download_FROM_GLC_2017.get_links_for_region before
            min_lat max_lat min_lon max_lon),
     Some e).
Proof.
  intros Hbefore Htif Hparse. rewrite script_2017_app, Hbefore.
  cbn [Download_FROM_GLC_2017.get_links_for_region].
  rewrite Htif, Hparse. cbn [negb fst snd]. now rewrite app_nil_r.
Qed.

Lemma script_2017_stops_at_unparseable_name_witness :
  Download_FROM_GLC_2017.get_links_for_region
    ([Entry "7" "fromglc10v01_10_20.tif"] ++ Entry "8" "readme.tif"
       :: [Entry "9" "fromglc10v01_12_20.tif"]) 9 13 19 21
  = (["https://data-starcloud.pcl.ac.cn/api/en/resourceFile/download/1/7"%string],
     Some Py.ValueError).
Proof.
  apply (script_2017_stops_at_unparseable_name
           [Entry "7" "fromglc10v01_10_20.tif"]
           [Entry "9" "fromglc10v01_12_20.tif"] (Entry "8" "readme.tif"));
    reflexivity.
Defined.

(** When the 2017 script runs through a catalog without an error, every
    link that [get_links_from_glc_2017] of [link_generator.py] yields for
    the same catalog and box is among the links of the script: the script
    accepts a tile for four positions, [link_generator.py] for the first of
    them only. *)
Theorem link_generator_2017_links_among_script_links
    (meta_data : list entry) (min_lat max_lat min_lon max_lon : Q) :
  snd (Download_FROM_GLC_2017.get_links_for_region meta_data
         min_lat max_lat min_lon max_lon) = None ->
  incl (FromGlc2017.get_links_from_glc_2017 meta_data min_lat max_lat min_lon max_lon)
       (fst (Download_FROM_GLC_2017.get_links_for_region meta_data
               min_lat max_lat min_lon max_lon)).
Proof.
  induction meta_data as [| ele rest IH];
    cbn [FromGlc2017.get_links_from_glc_2017
         Download_FROM_GLC_2017.get_links_for_region]; [intros _ l []|].
  unfold FromGlc2017.visit, FromGlc2017.try_block.
  destruct (negb (Py.endswith (name ele) ".tif")); [exact IH|].
  destruct (Download_FROM_GLC_2017.parse_lat_lon (name ele)) as [[lat lon] | e] eqn:P;
    [|discriminate].
  rewrite (script_parse_implies_parse _ _ _ P). cbn [Py.bind].
  destruct (Download_FROM_GLC_2017.get_links_for_region rest _ _ _ _)
    as [ys raised] eqn:R. cbn [fst snd] in IH.
  unfold Download_FROM_GLC_2017.matches.
  change Download_FROM_GLC_2017.inside with FromGlc2017.inside.
  destruct (FromGlc2017.inside min_lat max_lat min_lon max_lon lat lon);
    cbn [orb app];
    [|destruct (_ || _); cbn [fst snd]; intros Hr;
      [apply incl_tl|]; now apply IH].
  cbn [fst snd]. intros Hr.
  apply incl_cons; [now left | apply incl_tl; now apply IH].
Qed.

Lemma link_generator_2017_links_among_script_links_witness :
  snd (Download_FROM_GLC_2017.get_links_for_region
         [Entry "7" "fromglc10v01_10_20.tif"] 9 11 19 21) = None
  /\ incl (FromGlc2017.get_links_from_glc_2017
             [Entry "7" "fromglc10v01_10_20.tif"] 9 11 19 21)
          (fst (Download_FROM_GLC_2017.get_links_for_region
                  [Entry "7" "fromglc10v01_10_20.tif"] 9 11 19 21)).
Proof.
  split; [reflexivity|].
  apply (link_generator_2017_links_among_script_links
           [Entry "7" "fromglc10v01_10_20.tif"] 9 11 19 21).
  reflexivity.
Defined.

End FromGlc2017Both.

(** ** Years and the main block *)

Section MainBlock.

Import LinkGenerator.

(** No source of the table has an empty list of years. *)
Lemma source_years_nonempty (source : string) (years : list Z) :
  source_years SOURCE_YEAR_AVAILABILITY source = Some years -> years <> [].
Proof.
  unfold SOURCE_YEAR_AVAILABILITY. cbn [source_years].
  repeat (destruct (String.eqb source _);
          [intros [= <-]; vm_compute; discriminate|]).
  discriminate.
Qed.

Lemma resolved_year_listed (source : string) (years : list Z) (requested : Z) :
  source_years SOURCE_YEAR_AVAILABILITY source = Some years ->
  exists year,
    resolved_year source requested = Some year
    /\ In year years
    /\ Spec.minimizes_key requested years year
    /\ resolved_year source year = Some year.
Proof.
  intros Hs. pose proof (source_years_nonempty _ _ Hs) as Hne.
  unfold resolved_year. rewrite Hs.
  destruct (resolve_year_with_availability requested years Hne) as (y & Hy & Hmin).
  exists y. split; [exact Hy|]. split; [apply Hmin|]. split; [exact Hmin|].
  destruct (resolve_year_with_availability y years Hne) as (y' & Hy' & Hmin').
  rewrite Hy'. f_equal.
  apply (minimizes_key_member y years y'); [apply Hmin | exact Hmin'].
Qed.

(** For a source that has a list of years, the year the main block goes on
    with is a year of that list, the nearest to the requested one (the later
    one on a tie), and asking for that year again changes nothing. *)
Theorem resolved_year_is_available
    (source : string) (years : list Z) (requested : Z) :
  source_years SOURCE_YEAR_AVAILABILITY source = Some years ->
  exists year,
    resolved_year source requested = Some year
    /\ In year years
    /\ Spec.minimizes_key requested years year
    /\ resolved_year source year = Some year.
Proof. exact (resolved_year_listed source years requested). Qed.

Lemma resolved_year_is_available_witness :
  exists year, resolved_year "WSF" 2018 = Some year /\ In year [2015; 2019].
Proof.
  destruct (resolved_year_is_available "WSF" [2015; 2019] 2018 eq_refl)
    as (y & Hy & Hin & _).
  exists y. split; assumption.
Defined.

(** GFC_FCS30D from the main block to the resolver: whatever year is
    requested and whatever the AOI, the entry of the main block exists, its
    map year is a global-coverage year, and [get_links_gfc_fcs30d] called
    with the year of the entry yields exactly one link, the one of that map
    year, and prints nothing. [get_links_gfc] gives the same link for that
    map year. *)
Theorem gfc_fcs30d_from_request_to_link
    (requested : Z) (min_lat max_lat min_lon max_lon : Q) :
  exists year map_year,
    main_entry "GFC_FCS30D" requested = Some (year, map_year)
    /\ In map_year global_coverage_years
    /\ get_links_gfc_fcs30d year min_lat max_lat min_lon max_lon
       = ([gfc_fcs30d_link map_year], [])
    /\ get_links_gfc map_year = [gfc_fcs30d_link map_year].
Proof.
  destruct (resolved_year_listed "GFC_FCS30D" _ requested eq_refl)
    as (y & Hy & Hin & _).
  unfold main_entry. rewrite Hy.
  cbn in Hin.
  destruct Hin as [<- | [<- | [<- | [<- | [<- | [<- | [<- | []]]]]]]];
    eexists; eexists; (split; [reflexivity|]);
    (split; [cbn; tauto|]); split; reflexivity.
Qed.

(** With the tables of the source the AOI plays no part in GFC_FCS30D: two
    calls for the same year give the same result for any two boxes, and
    the no-intersection notice is never printed. *)
Theorem gfc_fcs30d_ignores_aoi
    (year : Z) (min_lat max_lat min_lon max_lon : Q)
    (min_lat' max_lat' min_lon' max_lon' : Q) :
  get_links_gfc_fcs30d year min_lat max_lat min_lon max_lon
  = get_links_gfc_fcs30d year min_lat' max_lat' min_lon' max_lon'
  /\ forall map_year,
       ~ In (Info_no_intersection map_year)
            (snd (get_links_gfc_fcs30d year min_lat max_lat min_lon max_lon)).
Proof.
  rewrite !gfc_fcs30d_source_tables. split; [reflexivity|].
  intros map_year.
  destruct (existsb _ global_coverage_years); cbn; [tauto|].
  intros [H | []]. discriminate H.
Qed.

(** The other rules of the main block. A GSW request keeps its year and is
    kept exactly when the year lies in 1984..2023. A GHS_BU_R2023A request
    always becomes the year 2018 with map year 2018. For every source the
    map year is the year of the entry, except for GFC_FCS30D in 2024 (map
    year 2022) and GHS_BU_R2023A. *)
Theorem main_entry_rules (requested : Z) :
  (main_entry "GSW" requested
   = if (1984 <=? requested) && (requested <=? 2023)
     then Some (requested, requested) else None)
  /\ main_entry "GHS_BU_R2023A" requested = Some (2018, 2018)
  /\ (forall source year map_year,
        main_entry source requested = Some (year, map_year) ->
        map_year = year
        \/ (source = "GFC_FCS30D"%string /\ year = 2024 /\ map_year = 2022)
        \/ (source = "GHS_BU_R2023A"%string /\ map_year = 2018)).
Proof.
  split; [|split].
  - unfold main_entry. cbn.
    destruct ((1984 <=? requested) && (requested <=? 2023)); reflexivity.
  - destruct (resolved_year_listed "GHS_BU_R2023A" _ requested eq_refl)
      as (y & Hy & Hin & _).
    unfold main_entry. rewrite Hy. destruct Hin as [<- | []]. reflexivity.
  - intros source year map_year. unfold main_entry.
    destruct (resolved_year source requested) as [y|]; [|discriminate].
    destruct (_ && negb _); [discriminate|].
    destruct (String.eqb_spec source "GFC_FCS30D") as [-> | _]; cbn [andb].
    + destruct (Z.eqb_spec y 2024) as [-> | _].
      * intros [= <- <-]. right. left. auto.
      * cbn. intros [= <- <-]. now left.
    + destruct (String.eqb_spec source "GHS_BU_R2023A") as [-> | _].
      * intros [= <- <-]. right. right. auto.
      * intros [= <- <-]. now left.
Qed.

Lemma main_entry_rules_witness :
  main_entry "GFC_FCS30D" 2023 = Some (2024, 2022)
  /\ (2022 = 2024
      \/ ("GFC_FCS30D"%string = "GFC_FCS30D"%string /\ 2024 = 2024 /\ 2022 = 2022)
      \/ ("GFC_FCS30D"%string = "GHS_BU_R2023A"%string /\ 2022 = 2018)).
Proof.
  assert (main_entry "GFC_FCS30D" 2023 = Some (2024, 2022)) as H by reflexivity.
  split; [exact H|].
  exact (proj2 (proj2 (main_entry_rules 2023)) "GFC_FCS30D"%string 2024 2022 H).
Defined.

End MainBlock.

(** ** GISD30 *)

Section Gisd30.

Import LinkGenerator.

Lemma band_matches_iff (min_lon max_lon : Q) (rg : Z * Z) :
  band_matches min_lon max_lon rg = true
  <-> (inject_Z (fst rg) <= max_lon)%Q /\ (min_lon <= inject_Z (snd rg))%Q.
Proof. unfold band_matches. now rewrite andb_true_iff, !Qle_bool_iff. Qed.

(** Adding to a set something it does not have puts it at the end. *)
Lemma set_add_new (x : string) (l : list string) :
  ~ In x l -> set_add string_dec x l = l ++ [x].
Proof.
  induction l as [| y l IH]; cbn; [reflexivity|]. intros Hn.
  destruct (string_dec x y) as [-> | _]; [exfalso; apply Hn; now left|].
  rewrite IH; [reflexivity|]. intros H. apply Hn. now right.
Qed.

(** The archives of the twelve bands are all different. *)
Lemma gisd30_archives_distinct :
  NoDup (map (fun item => gisd30_link (snd item)) map_link_ranges).
Proof.
  apply (NoDup_count_occ' string_dec). intros x Hx.
  cbn in Hx. repeat (destruct Hx as [<- | Hx]; [reflexivity|]). contradiction.
Qed.

(** The set built by the first loop: the archives of the matching bands,
    none of them twice. *)
Lemma gisd30_fold (min_lon max_lon : Q) (table : list ((Z * Z) * string))
    (acc : list string) :
  NoDup (acc ++ map (fun item => gisd30_link (snd item)) table) ->
  fold_left
    (fun unique_links item =>
       if band_matches min_lon max_lon (fst item)
       then set_add string_dec (gisd30_link (snd item)) unique_links
       else unique_links)
    table acc
  = acc ++ map (fun item => gisd30_link (snd item))
             (filter (fun item => band_matches min_lon max_lon (fst item)) table).
Proof.
  revert acc. induction table as [| item table IH]; intros acc Hnd; cbn.
  - now rewrite app_nil_r.
  - cbn in Hnd. pose proof (NoDup_remove_2 _ _ _ Hnd) as Hnew.
    pose proof (NoDup_remove_1 _ _ _ Hnd) as Hrest.
    destruct (band_matches min_lon max_lon (fst item)).
    + rewrite set_add_new by (intros H; apply Hnew, in_or_app; now left).
      rewrite IH; cbn; rewrite <- app_assoc; [reflexivity|].
      cbn. exact Hnd.
    + apply IH. exact Hrest.
Qed.

Lemma get_links_gisd30_filter (min_lat max_lat min_lon max_lon : Q) :
  get_links_gisd30 min_lat max_lat min_lon max_lon
  = map (fun item => gisd30_link (snd item))
      (filter (fun item => band_matches min_lon max_lon (fst item)) map_link_ranges).
Proof.
  unfold get_links_gisd30. rewrite gisd30_fold; [reflexivity|].
  exact gisd30_archives_distinct.
Qed.

Lemma in_get_links_gisd30 (min_lat max_lat min_lon max_lon : Q) (l : string) :
  In l (get_links_gisd30 min_lat max_lat min_lon max_lon)
  <-> exists lo hi val,
        In ((lo, hi), val) map_link_ranges
        /\ (inject_Z lo <= max_lon)%Q /\ (min_lon <= inject_Z hi)%Q
        /\ l = gisd30_link val.
Proof.
  rewrite get_links_gisd30_filter, in_map_iff. split.
  - intros ([[lo hi] val] & <- & Hin). apply filter_In in Hin as [Hin Hm].
    apply band_matches_iff in Hm as [H1 H2]. exists lo, hi, val. auto.
  - intros (lo & hi & val & Hin & H1 & H2 & ->). exists ((lo, hi), val).
    split; [reflexivity|]. apply filter_In. split; [exact Hin|].
    apply band_matches_iff. now split.
Qed.

(** GISD30 yields the archive of a band exactly when the band meets the
    longitude interval of the box; no archive is yielded twice, and the
    latitudes play no part. *)
Theorem get_links_gisd30_matching_bands
    (min_lat max_lat min_lon max_lon : Q) :
  (forall l,
      In l (get_links_gisd30 min_lat max_lat min_lon max_lon)
      <-> exists lo hi val,
            In ((lo, hi), val) map_link_ranges
            /\ (inject_Z lo <= max_lon)%Q /\ (min_lon <= inject_Z hi)%Q
            /\ l = gisd30_link val)
  /\ NoDup (get_links_gisd30 min_lat max_lat min_lon max_lon)
  /\ (forall min_lat' max_lat',
        get_links_gisd30 min_lat' max_lat' min_lon max_lon
        = get_links_gisd30 min_lat max_lat min_lon max_lon).
Proof.
  split; [intros l; apply in_get_links_gisd30 | split].
  - rewrite get_links_gisd30_filter.
    pose proof gisd30_archives_distinct as Hnd.
    revert Hnd. generalize map_link_ranges as table.
    induction table as [| item table IH]; cbn; [intros _; constructor|].
    intros Hnd. inversion Hnd as [| x xs Hx Hxs]; subst.
    destruct (band_matches min_lon max_lon (fst item)); cbn; [|now apply IH].
    constructor; [|now apply IH].
    intros Hin. apply Hx. apply in_map_iff in Hin as (it & E & Hit).
    apply filter_In in Hit as [Hit _]. apply in_map_iff. now exists it.
  - intros. reflexivity.
Qed.

(** Widening the longitude interval never loses an archive. *)
Theorem get_links_gisd30_monotone
    (min_lat max_lat min_lon max_lon min_lon' max_lon' : Q) :
  (min_lon' <= min_lon)%Q -> (max_lon <= max_lon')%Q ->
  incl (get_links_gisd30 min_lat max_lat min_lon max_lon)
       (get_links_gisd30 min_lat max_lat min_lon' max_lon').
Proof.
  intros Hmin Hmax l Hl.
  apply in_get_links_gisd30 in Hl as (lo & hi & val & Hin & H1 & H2 & ->).
  apply in_get_links_gisd30.
  exists lo, hi, val. repeat split; try assumption.
  - eapply Qle_trans; eauto.
  - eapply Qle_trans; eauto.
Qed.

Lemma get_links_gisd30_monotone_witness :
  (-40 <= -10)%Q /\ (10 <= 40)%Q
  /\ incl (get_links_gisd30 0 0 (-10) 10) (get_links_gisd30 0 0 (-40) 40).
Proof.
  split; [unfold Qle; simpl; lia|]. split; [unfold Qle; simpl; lia|].
  apply get_links_gisd30_monotone; unfold Qle; simpl; lia.
Defined.

End Gisd30.

Section Gisd30Bands.

Import LinkGenerator.

(** Settle the comparisons of a goal one by one from the hypotheses. *)
Ltac settle_comparisons :=
  repeat match goal with
         | |- context [Qle_bool ?a ?b] =>
             let E := fresh "E" in
             destruct (Qle_bool a b) eqn:E;
             [ apply Qle_bool_iff in E
             | rewrite <- not_true_iff_false, Qle_bool_iff in E ];
             unfold inject_Z in *; cbn [andb] in *;
             try (exfalso; lra)
         end.

(** The bands leave no gap between 180 W and 180 E: a box whose longitude
    interval is not empty and meets [-180, 180] always gets at least one
    archive. *)
Theorem get_links_gisd30_never_empty (min_lat max_lat min_lon max_lon : Q) :
  (min_lon <= max_lon)%Q ->
  (min_lon <= inject_Z 180)%Q -> (inject_Z (-180) <= max_lon)%Q ->
  get_links_gisd30 min_lat max_lat min_lon max_lon <> [].
Proof.
  intros Hle Hhi Hlo. rewrite get_links_gisd30_filter.
  unfold map_link_ranges, band_matches. cbn [filter fst snd].
  unfold inject_Z in *.
  settle_comparisons; cbn [map]; try discriminate; exfalso; lra.
Qed.

Lemma get_links_gisd30_never_empty_witness :
  (35 <= 35)%Q /\ get_links_gisd30 0 0 35 35 <> [].
Proof.
  split; [unfold Qle; simpl; lia|].
  apply get_links_gisd30_never_empty; unfold Qle; simpl; lia.
Defined.

(** A box whose longitude interval lies strictly inside one band gets the
    archive of that band and no other. *)
Theorem get_links_gisd30_single_band
    (min_lat max_lat min_lon max_lon : Q) (lo hi : Z) (val : string) :
  In ((lo, hi), val) map_link_ranges ->
  (inject_Z lo < min_lon)%Q -> (min_lon <= max_lon)%Q -> (max_lon < inject_Z hi)%Q ->
  get_links_gisd30 min_lat max_lat min_lon max_lon = [gisd30_link val].
Proof.
  intros Hin H1 H2 H3. rewrite get_links_gisd30_filter.
  unfold map_link_ranges in Hin. cbn [In] in Hin.
  unfold map_link_ranges, band_matches. cbn [filter fst snd].
  unfold inject_Z in *.
  repeat (destruct Hin as [Hin | Hin];
          [ injection Hin as <- <- <-;
            settle_comparisons; cbn [map snd]; try reflexivity; exfalso; lra |]).
  contradiction.
Qed.

Lemma get_links_gisd30_single_band_witness :
  get_links_gisd30 40 50 5 (25 # 2) = [gisd30_link "E0_E30"].
Proof.
  apply (get_links_gisd30_single_band 40 50 5 (25 # 2) 0 35 "E0_E30"%string).
  - cbn. tauto.
  - unfold Qlt; simpl; lia.
  - unfold Qle; simpl; lia.
  - unfold Qlt; simpl; lia.
Defined.

End Gisd30Bands.

(** ** FROM_GLC 2010 *)

Section FromGlc2010.

Import LinkGenerator.

Lemma metas_get_append (metas : list (string * list entry)) (k key : string)
    (ele : entry) :
  metas_get (metas_append metas k ele) key
  = if String.eqb key k then Some (Spec.scenes_at metas k ++ [ele])
    else metas_get metas key.
Proof.
  unfold Spec.scenes_at. induction metas as [| [k' eles] metas IH]; cbn.
  - destruct (String.eqb key k); reflexivity.
  - destruct (String.eqb_spec k k') as [<- | Hkk']; cbn.
    + destruct (String.eqb key k); reflexivity.
    + rewrite IH.
      destruct (String.eqb_spec key k') as [-> | Hne'].
      * apply String.eqb_neq in Hkk'. rewrite String.eqb_sym in Hkk'.
        now rewrite Hkk'.
      * reflexivity.
Qed.

Lemma scenes_at_append (metas : list (string * list entry)) (k key : string)
    (ele : entry) :
  Spec.scenes_at (metas_append metas k ele) key
  = Spec.scenes_at metas key ++ (if String.eqb key k then [ele] else []).
Proof.
  unfold Spec.scenes_at at 1. rewrite metas_get_append.
  destruct (String.eqb_spec key k) as [-> | _]; [reflexivity|].
  unfold Spec.scenes_at. now rewrite app_nil_r.
Qed.

Lemma filter_carries_key_cons (key : string) (ele : entry) (rest : list entry) :
  filter (Spec.carries_key key) (ele :: rest)
  = (if Py.startswith (Py.lower (name ele)) "l5"
     then match get_path_rows_from_name (name ele) with
          | Py.Ok pr =>
              if String.eqb key (path_row_key (fst pr) (snd pr)) then [ele] else []
          | Py.Raise _ => []
          end
     else [])
    ++ filter (Spec.carries_key key) rest.
Proof.
  cbn [filter]. unfold Spec.carries_key at 1.
  destruct (Py.startswith (Py.lower (name ele)) "l5"); [|reflexivity].
  destruct (get_path_rows_from_name (name ele)) as [pr | e]; [|reflexivity].
  cbn [andb]. destruct (String.eqb key _); reflexivity.
Qed.

Lemma index_metas_scenes (meta_data : list entry) :
  forall acc metas,
    Spec.no_empty_key acc ->
    index_metas meta_data acc = Py.Ok metas ->
    Spec.no_empty_key metas
    /\ forall key,
         Spec.scenes_at metas key
         = Spec.scenes_at acc key ++ filter (Spec.carries_key key) meta_data.
Proof.
  induction meta_data as [| ele rest IH]; intros acc metas Hacc.
  - cbn. intros [= <-]. split; [exact Hacc|]. intros key. now rewrite app_nil_r.
  - cbn [index_metas].
    destruct (Py.startswith (Py.lower (name ele)) "l5") eqn:El5; cbn [negb].
    + destruct (get_path_rows_from_name (name ele)) as [[path row] | e] eqn:Ep;
        [|discriminate].
      cbn [Py.bind fst snd]. intros Hm.
      apply IH in Hm as [Hne Hm].
      * split; [exact Hne|]. intros key.
        rewrite Hm, scenes_at_append, filter_carries_key_cons, El5, Ep.
        cbn [fst snd]. now rewrite <- app_assoc.
      * intros key. rewrite metas_get_append.
        destruct (String.eqb key (path_row_key path row)); [|apply Hacc].
        intros [= E]. now destruct (Spec.scenes_at acc (path_row_key path row)).
    + intros Hm. apply IH in Hm as [Hne Hm]; [|exact Hacc].
      split; [exact Hne|]. intros key.
      now rewrite Hm, filter_carries_key_cons, El5.
Qed.

Lemma index_metas_total (meta_data : list entry) :
  Spec.scenes_well_named meta_data ->
  forall acc, exists metas, index_metas meta_data acc = Py.Ok metas.
Proof.
  induction meta_data as [| ele rest IH]; intros Hw acc; cbn.
  - now exists acc.
  - assert (Spec.scenes_well_named rest) as Hrest.
    { intros e He. apply Hw. now right. }
    destruct (Py.startswith (Py.lower (name ele)) "l5") eqn:E; cbn [negb].
    + destruct (Hw ele (or_introl eq_refl) E) as (pr & ->). cbn [Py.bind].
      now apply IH.
    + now apply IH.
Qed.

(** What FROM_GLC 2010 yields when every scene name of the catalog holds a
    path and a row. For each row of the path/row frame, in the order of the
    frame, it yields the links of the catalog entries, in the order of the
    catalog, whose name starts with [l5] in any case, holds that path and
    row, and ends with [.tif.tar.gz]; a row of the frame that has no scene
    at all in the catalog gives the missing-metadata message instead. *)
Theorem get_links_from_glc_2010_by_path_row
    (meta_data : list entry) (paths_rows : list (Z * Z)) :
  Spec.scenes_well_named meta_data ->
  get_links_from_glc_2010 meta_data paths_rows
  = Py.Ok
      (flat_map
         (fun path_row =>
            map link_2010
              (filter (fun ele => Py.endswith (name ele) ".tif.tar.gz")
                      (Spec.scenes_of meta_data path_row)))
         paths_rows,
       flat_map
         (fun path_row =>
            match Spec.scenes_of meta_data path_row with
            | [] => [Missing_metadata (path_row_key (fst path_row) (snd path_row))]
            | _ :: _ => []
            end)
         paths_rows).
Proof.
  intros Hw. unfold get_links_from_glc_2010.
  destruct (index_metas_total meta_data Hw []) as (metas & Hm). rewrite Hm.
  cbn [Py.bind]. apply index_metas_scenes in Hm as [Hne Hm];
    [|intros key; discriminate].
  f_equal.
  assert (forall path_row,
             visit_path_row metas path_row
             = (map link_2010
                  (filter (fun ele => Py.endswith (name ele) ".tif.tar.gz")
                          (Spec.scenes_of meta_data path_row)),
                match Spec.scenes_of meta_data path_row with
                | [] => [Missing_metadata (path_row_key (fst path_row) (snd path_row))]
                | _ :: _ => []
                end)) as Hvisit.
  { intros path_row. unfold visit_path_row, Spec.scenes_of.
    specialize (Hm (path_row_key (fst path_row) (snd path_row))).
    specialize (Hne (path_row_key (fst path_row) (snd path_row))).
    unfold Spec.scenes_at in Hm. cbn [metas_get app] in Hm.
    destruct (metas_get metas (path_row_key (fst path_row) (snd path_row)))
      as [eles|].
    - rewrite <- Hm. destruct eles; [congruence | reflexivity].
    - rewrite <- Hm. reflexivity. }
  f_equal.
  - rewrite flat_map_concat_map, map_map, <- flat_map_concat_map.
    apply flat_map_ext. intros pr. now rewrite Hvisit.
  - rewrite flat_map_concat_map, map_map, <- flat_map_concat_map.
    apply flat_map_ext. intros pr. now rewrite Hvisit.
Qed.

Lemma get_links_from_glc_2010_by_path_row_witness :
  get_links_from_glc_2010
    [Entry "1" "L5007012_2010.tif.tar.gz"; Entry "2" "l5007012_2010.txt";
     Entry "3" "readme.tif"]
    [(7, 12); (8, 12)]
  = Py.Ok (["https://data-starcloud.pcl.ac.cn/api/en/resourceFile/download/4/1"%string],
           [Missing_metadata "8_12"]).
Proof.
  rewrite get_links_from_glc_2010_by_path_row; [reflexivity|].
  intros ele [<- | [<- | [<- | []]]] H; try discriminate H; eexists; reflexivity.
Defined.

Lemma unsigned_of_str_raises_value_error (t : string) (e : Py.exn) :
  Py.unsigned_of_str t = Py.Raise e -> e = Py.ValueError.
Proof.
  unfold Py.unsigned_of_str. destruct t as [| c t].
  - intros H. inversion H. reflexivity.
  - destruct (Py.digits_value 0 (String c t)); intros H; inversion H. reflexivity.
Qed.

Lemma int_of_str_raises_value_error (s : string) (e : Py.exn) :
  Py.int_of_str s = Py.Raise e -> e = Py.ValueError.
Proof.
  unfold Py.int_of_str. destruct (Py.strip s) as [| c rest].
  - apply unsigned_of_str_raises_value_error.
  - destruct c as [[|] [|] [|] [|] [|] [|] [|] [|]];
      try apply unsigned_of_str_raises_value_error.
    destruct (Py.unsigned_of_str rest) as [n | e'] eqn:E; cbn [Py.bind];
      intros H; inversion H; subst.
    eapply unsigned_of_str_raises_value_error; eauto.
Qed.

(** One scene name without a path and a row stops FROM_GLC 2010 before it
    yields anything: the index is built with no [try], so the resolver
    ends with [ValueError] whatever the other entries and the frame are. *)
Theorem get_links_from_glc_2010_bad_scene_name
    (meta_data : list entry) (paths_rows : list (Z * Z)) (ele : entry) (e : Py.exn) :
  In ele meta_data ->
  Py.startswith (Py.lower (name ele)) "l5" = true ->
  get_path_rows_from_name (name ele) = Py.Raise e ->
  get_links_from_glc_2010 meta_data paths_rows = Py.Raise Py.ValueError.
Proof.
  intros Hin Hl5 Hparse. unfold get_links_from_glc_2010.
  assert (forall name_ e', get_path_rows_from_name name_ = Py.Raise e' ->
                           e' = Py.ValueError) as Hve.
  { intros name_ e'. unfold get_path_rows_from_name.
    set (parts := Py.str_from 2 (hd EmptyString (Py.split "_" name_))).
    destruct (Py.int_of_str (Py.str_upto 3 parts)) as [path | e1] eqn:E1;
      cbn [Py.bind].
    - destruct (Py.int_of_str (Py.str_from 3 parts)) as [row | e2] eqn:E2;
        cbn [Py.bind]; intros H; inversion H; subst.
      eapply int_of_str_raises_value_error; eauto.
    - intros H; inversion H; subst.
      eapply int_of_str_raises_value_error; eauto. }
  assert (forall acc, index_metas meta_data acc = Py.Raise Py.ValueError) as Hidx.
  { induction meta_data as [| x rest IH]; [contradiction|]. intros acc. cbn.
    destruct Hin as [-> | Hin].
    - rewrite Hl5, Hparse. cbn. f_equal. eapply Hve; eauto.
    - destruct (negb (Py.startswith (Py.lower (name x)) "l5")); [now apply IH|].
      destruct (get_path_rows_from_name (name x)) as [pr | e'] eqn:E; cbn.
      + now apply IH.
      + f_equal. eapply Hve; eauto. }
  now rewrite Hidx.
Qed.

Lemma get_links_from_glc_2010_bad_scene_name_witness :
  get_links_from_glc_2010
    [Entry "1" "L5007012_2010.tif.tar.gz"; Entry "2" "L5.tif.tar.gz"] [(7, 12)]
  = Py.Raise Py.ValueError.
Proof.
  apply (get_links_from_glc_2010_bad_scene_name _ _ (Entry "2" "L5.tif.tar.gz")
           Py.ValueError).
  - right. left. reflexivity.
  - reflexivity.
  - reflexivity.
Defined.

End FromGlc2010.

Section SceneNames.

Import LinkGenerator.

Lemma hd_split_cons (sep c : ascii) (s : string) :
  Ascii.eqb c sep = false ->
  hd EmptyString (Py.split sep (String c s))
  = String c (hd EmptyString (Py.split sep s)).
Proof.
  intros Hc. cbn [Py.split]. rewrite Hc.
  destruct (Py.split sep s); reflexivity.
Qed.

Lemma hd_split_sep (sep : ascii) (s : string) :
  hd EmptyString (Py.split sep (String sep s)) = EmptyString.
Proof. cbn [Py.split]. now rewrite Ascii.eqb_refl. Qed.

Lemma digit_not_underscore (d : Z) :
  0 <= d <= 9 -> Ascii.eqb (Spec.digit d) "_" = false.
Proof.
  intros Hd.
  assert (d = 0 \/ d = 1 \/ d = 2 \/ d = 3 \/ d = 4 \/ d = 5 \/ d = 6 \/ d = 7
          \/ d = 8 \/ d = 9) as H by lia.
  repeat (destruct H as [-> | H]; [reflexivity|]). subst d. reflexivity.
Qed.

Lemma int_of_three_digits_table :
  forallb (fun n => match Py.int_of_str (Spec.three_digits n) with
                    | Py.Ok m => m =? n
                    | Py.Raise _ => false
                    end)
          (Py.range 0 1000 1) = true.
Proof. vm_compute. reflexivity. Qed.

Lemma int_of_three_digits (n : Z) :
  0 <= n < 1000 -> Py.int_of_str (Spec.three_digits n) = Py.Ok n.
Proof.
  intros Hn. pose proof int_of_three_digits_table as H.
  rewrite forallb_forall in H. specialize (H n).
  destruct (Py.int_of_str (Spec.three_digits n)) as [m | e].
  - f_equal. apply Z.eqb_eq, H. apply range_up_In; [lia|].
    split; [lia|]. apply Z.mod_1_r.
  - discriminate H. apply range_up_In; [lia|]. split; [lia|]. apply Z.mod_1_r.
Qed.

(** Reading back a scene name. A name made of two characters (such as
    [L5]), three digits of path, three digits of row, an underscore and
    anything after it is read by [get_path_rows_from_name] as that path
    and that row, leading zeros dropped, so that its key is the one the
    path/row frame gives. *)
Theorem get_path_rows_from_name_reads_scene
    (c1 c2 : ascii) (path row : Z) (rest : string) :
  Ascii.eqb c1 "_" = false -> Ascii.eqb c2 "_" = false ->
  0 <= path < 1000 -> 0 <= row < 1000 ->
  get_path_rows_from_name
    (String c1 (String c2
       (Spec.three_digits path ++ Spec.three_digits row ++ String "_" rest)))
  = Py.Ok (path, row).
Proof.
  intros H1 H2 Hp Hr. unfold get_path_rows_from_name.
  assert (forall n, 0 <= n < 1000 ->
            0 <= n / 100 <= 9 /\ 0 <= n / 10 mod 10 <= 9 /\ 0 <= n mod 10 <= 9)
    as Hd by (intros n Hn; grid_arith).
  destruct (Hd path Hp) as (P1 & P2 & P3). destruct (Hd row Hr) as (R1 & R2 & R3).
  remember (Py.str_from 2 (hd EmptyString (Py.split "_"
              (String c1 (String c2
                 (Spec.three_digits path ++ Spec.three_digits row
                    ++ String "_" rest)))))) as parts eqn:Eparts.
  assert (parts = (Spec.three_digits path ++ Spec.three_digits row)%string) as E.
  { subst parts. unfold Spec.three_digits. cbn [append].
    rewrite !hd_split_cons by (assumption || now apply digit_not_underscore).
    rewrite hd_split_sep. reflexivity. }
  clear Eparts. subst parts.
  replace (Py.str_upto 3 (Spec.three_digits path ++ Spec.three_digits row))
    with (Spec.three_digits path) by reflexivity.
  replace (Py.str_from 3 (Spec.three_digits path ++ Spec.three_digits row))
    with (Spec.three_digits row) by reflexivity.
  rewrite (int_of_three_digits path Hp). cbn [Py.bind].
  rewrite (int_of_three_digits row Hr). reflexivity.
Qed.

Lemma get_path_rows_from_name_reads_scene_witness :
  get_path_rows_from_name "L5007012_20100101.tif.tar.gz" = Py.Ok (7, 12).
Proof.
  apply (get_path_rows_from_name_reads_scene "L" "5" 7 12 "20100101.tif.tar.gz");
    try reflexivity; lia.
Defined.

End SceneNames.

(** ** Fetching a catalog page by page *)

Section FetchCatalog.

Import LinkGenerator.

Lemma firstn_add {A} (a b : nat) (l : list A) :
  firstn (a + b) l = firstn a l ++ firstn b (skipn a l).
Proof.
  revert l. induction a as [| a IH]; intros l; [reflexivity|].
  destruct l as [| x l]; cbn; [now destruct b | now rewrite IH].
Qed.

Lemma firstn_100_nil {A} (l : list A) : firstn 100 l = [] -> l = [].
Proof. destruct l; [reflexivity | discriminate]. Qed.

(** After [k] full pages the loop holds the first [100 * k] items; with
    enough requests left it ends with the whole catalog. *)
Lemma fetch_pages_paged (items : list entry) (fuel : nat) :
  forall k : nat,
    (1 <= fuel)%nat -> (List.length items <= 100 * (k + fuel))%nat ->
    fetch_pages (Spec.paged_server items) fuel (Z.of_nat k + 1)
      (firstn (100 * k) items)
    = Some (Some items).
Proof.
  induction fuel as [| fuel IH]; intros k Hfuel Hlen; [lia|].
  cbn [fetch_pages]. unfold Spec.paged_server at 1.
  cbn [success total page_list negb].
  replace (Z.to_nat (Z.of_nat k + 1) - 1)%nat with k by lia.
  destruct (firstn 100 (skipn (100 * k) items)) as [| x page] eqn:Epage.
  - apply firstn_100_nil in Epage.
    assert (List.length (skipn (100 * k) items) = 0%nat) as Hs by now rewrite Epage.
    rewrite length_skipn in Hs.
    rewrite firstn_all2 by lia. reflexivity.
  - rewrite <- Epage, <- firstn_add.
    destruct (Z.leb_spec (Z.of_nat (List.length items)) ((Z.of_nat k + 1) * 100)).
    + rewrite firstn_all2 by lia. reflexivity.
    + replace (100 * k + 100)%nat with (100 * S k)%nat by lia.
      replace (Z.of_nat k + 1 + 1) with (Z.of_nat (S k) + 1) by lia.
      apply IH; lia.
Qed.

(** Against a server that pages a catalog as [_fetch_pcl_metadata] expects,
    the function returns the whole catalog, in order, once it is allowed one
    request per hundred items and one more. *)
Theorem fetch_pcl_metadata_collects_catalog (items : list entry) (fuel : nat) :
  (List.length items / 100 < fuel)%nat ->
  _fetch_pcl_metadata (Spec.paged_server items) fuel = Some (Some items).
Proof.
  intros Hfuel. unfold _fetch_pcl_metadata.
  change 1 with (Z.of_nat 0 + 1). change (@nil entry) with (firstn (100 * 0) items).
  apply fetch_pages_paged; [lia|].
  pose proof (Nat.div_mod_eq (List.length items) 100).
  pose proof (Nat.mod_upper_bound (List.length items) 100). lia.
Qed.

Lemma fetch_pcl_metadata_collects_catalog_witness :
  _fetch_pcl_metadata
    (Spec.paged_server [Entry "1" "a.tif"; Entry "2" "b.tif"]) 1
  = Some (Some [Entry "1" "a.tif"; Entry "2" "b.tif"]).
Proof.
  apply fetch_pcl_metadata_collects_catalog. cbn. lia.
Defined.

Lemma fetch_pages_failure (server : Z -> option response) (k : Z) (fuel : nat) :
  forall p res,
    1 <= p <= k ->
    (forall q, p <= q < k -> Spec.page_goes_on server q) ->
    server k = None ->
    (Z.to_nat (k - p) < fuel)%nat ->
    fetch_pages server fuel p res = Some None.
Proof.
  induction fuel as [| fuel IH]; intros p res Hp Hgo Hk Hfuel; [lia|].
  cbn [fetch_pages].
  destruct (Z.eq_dec p k) as [-> | Hne]; [now rewrite Hk|].
  destruct (Hgo p ltac:(lia)) as (r & Hr & Hs & Hl & Ht).
  rewrite Hr, Hs. cbn [negb].
  destruct (page_list r) as [| x page] eqn:E; [congruence|].
  destruct (Z.leb_spec (total r) (p * 100)); [lia|].
  apply IH; try assumption; try lia.
  intros q Hq. apply Hgo. lia.
Qed.

(** A request that fails makes [_fetch_pcl_metadata] return [None]: the
    pages collected before it are not returned. *)
Theorem fetch_pcl_metadata_failure_loses_pages
    (server : Z -> option response) (k : Z) (fuel : nat) :
  1 <= k ->
  (forall q, 1 <= q < k -> Spec.page_goes_on server q) ->
  server k = None ->
  (Z.to_nat k <= fuel)%nat ->
  _fetch_pcl_metadata server fuel = Some None.
Proof.
  intros Hk Hgo Hfail Hfuel. unfold _fetch_pcl_metadata.
  apply (fetch_pages_failure server k); try assumption; lia.
Qed.

Lemma fetch_pcl_metadata_failure_loses_pages_witness :
  _fetch_pcl_metadata
    (fun p => if p =? 1 then Some (Response true 150 [Entry "1" "a.tif"]) else None) 2
  = Some None.
Proof.
  apply (fetch_pcl_metadata_failure_loses_pages _ 2); try reflexivity; try lia.
  intros q Hq. assert (q = 1) as -> by lia.
  exists (Response true 150 [Entry "1" "a.tif"]).
  repeat split. discriminate.
Defined.

End FetchCatalog.

Section GetInfo2017.

Import LinkGenerator.
Import Download_FROM_GLC_2017.

Lemma get_info_pages_go_on (server : Z -> option response) (fuel : nat) :
  forall p res,
    (forall q, p <= q < p + Z.of_nat fuel -> Spec.page_positive server q) ->
    get_info_pages server fuel p res = Still_requesting (p + Z.of_nat fuel).
Proof.
  induction fuel as [| fuel IH]; intros p res Hpos.
  - cbn. now rewrite Z.add_0_r.
  - cbn [get_info_pages].
    destruct (Hpos p ltac:(lia)) as (r & Hr & Hs & Ht).
    rewrite Hr, Hs. cbn [negb].
    destruct (Z.leb_spec (total r) 0); [lia|].
    rewrite IH by (intros q Hq; apply Hpos; lia).
    f_equal. lia.
Qed.

(** [get_info] of the 2017 script stops only on an answer that reports
    failure or a total that is not positive. While the answers report
    success and a positive total it keeps asking for the next page: after
    any number of requests it is still requesting. A server that gives the
    size of a non-empty catalog as total on every page never lets it
    return. *)
Theorem get_info_keeps_requesting (server : Z -> option response) (fuel : nat) :
  (forall q, 1 <= q -> Spec.page_positive server q) ->
  get_info server fuel = Still_requesting (1 + Z.of_nat fuel).
Proof.
  intros Hpos. unfold get_info.
  rewrite get_info_pages_go_on by (intros q Hq; apply Hpos; lia).
  reflexivity.
Qed.

Lemma get_info_keeps_requesting_witness :
  get_info (fun _ => Some (Response true 1 [Entry "1" "a.tif"])) 3
  = Still_requesting 4.
Proof.
  apply (get_info_keeps_requesting _ 3). intros q _.
  exists (Response true 1 [Entry "1" "a.tif"]). repeat split.
Defined.

(** When page [k] is the first whose answer reports failure or a total that
    is not positive, [get_info] returns the lists of the pages before it,
    one after the other. *)
Theorem get_info_returns_pages_before_stop
    (server : Z -> option response) (k : Z) (r : response) (fuel : nat) :
  1 <= k ->
  (forall q, 1 <= q < k -> Spec.page_positive server q) ->
  server k = Some r -> success r = false \/ total r <= 0 ->
  (Z.to_nat k <= fuel)%nat ->
  get_info server fuel = Returned (Spec.pages_before server k).
Proof.
  intros Hk Hpos Hr Hstop Hfuel. unfold get_info.
  assert (forall n p res,
             1 <= p <= k -> (Z.to_nat (k - p) < n)%nat ->
             get_info_pages server n p res
             = Returned (res ++ flat_map (fun q => match server q with
                                                   | Some r => page_list r
                                                   | None => []
                                                   end)
                                         (Py.range p k 1))) as Hrun.
  { induction n as [| n IH]; intros p res Hp Hn; [lia|].
    cbn [get_info_pages].
    destruct (Z.eq_dec p k) as [-> | Hne].
    - rewrite Hr.
      replace (Py.range k k 1) with (@nil Z)
        by (unfold Py.range, Py.range_len; cbn; now rewrite Z.ltb_irrefl).
      cbn [flat_map]. rewrite app_nil_r.
      destruct Hstop as [-> | Ht]; [reflexivity|].
      destruct (success r); cbn [negb]; [|reflexivity].
      destruct (Z.leb_spec (total r) 0); [reflexivity | lia].
    - destruct (Hpos p ltac:(lia)) as (rp & Hrp & Hs & Ht).
      rewrite Hrp, Hs. cbn [negb].
      destruct (Z.leb_spec (total rp) 0); [lia|].
      rewrite IH by lia. f_equal. rewrite <- app_assoc. f_equal.
      assert (Py.range p k 1 = p :: Py.range (p + 1) k 1) as ->.
      { unfold Py.range, Py.range_len. cbn [Z.ltb Z.compare].
        destruct (Z.ltb_spec p k); [|lia].
        destruct (Z.ltb_spec (p + 1) k).
        - rewrite !Z.div_1_r.
          replace (Z.to_nat (k - p - 1 + 1)) with (S (Z.to_nat (k - (p + 1) - 1 + 1)))
            by lia.
          cbn [seq map]. f_equal; [lia|].
          rewrite <- seq_shift, map_map. apply map_ext. intros i. lia.
        - rewrite Z.div_1_r. replace (Z.to_nat (k - p - 1 + 1)) with 1%nat by lia.
          cbn. f_equal. lia. }
      cbn [flat_map]. now rewrite Hrp. }
  rewrite Hrun by lia. reflexivity.
Qed.

Lemma get_info_returns_pages_before_stop_witness :
  get_info (fun p => if p =? 1 then Some (Response true 1 [Entry "1" "a.tif"])
                     else Some (Response true 0 [])) 2
  = Returned [Entry "1" "a.tif"].
Proof.
  rewrite (get_info_returns_pages_before_stop _ 2 (Response true 0 []));
    try reflexivity; try lia.
  - intros q Hq. assert (q = 1) as -> by lia.
    exists (Response true 1 [Entry "1" "a.tif"]). repeat split.
  - right. cbn. lia.
Defined.

End GetInfo2017.
